(** * Request-options decoding of the GraphQL HTTP handler

    A shallow embedding of [handler.go]: [getFromForm], [NewRequestOptions],
    [NewConfig] and [New] (and the [New] of the [part_000] variant),
    together with models of the library calls they make ([strings.Split],
    [url.ParseQuery], [Values.Get], [Header.Get], [ioutil.ReadAll],
    [Request.ParseForm], [json.Unmarshal]).  The library models follow the
    current Go standard library.

    Go strings are byte sequences: they are [string]s of 8-bit [ascii]
    characters here, and [[]byte(s)] / [string(b)] are the identity. *)

From Stdlib Require Import NArith ZArith Ascii String List Bool Lia.
From stdpp Require Import base option list gmap strings.

Local Open Scope string_scope.
Local Open Scope N_scope.

(** ** Bytes *)

Definition code (c : ascii) : N := N_of_ascii c.
Definition byte (n : N) : ascii := ascii_of_N n.

Definition in_range (lo hi : N) (c : ascii) : bool :=
  (lo <=? code c) && (code c <=? hi).

Definition is_digit (c : ascii) : bool := in_range 48 57 c.
Definition is_digit19 (c : ascii) : bool := in_range 49 57 c.

Definition hex_val (c : ascii) : option N :=
  if is_digit c then Some (code c - 48)
  else if in_range 97 102 c then Some (code c - 87)
  else if in_range 65 70 c then Some (code c - 55)
  else None.

Fixpoint string_of_list (l : list ascii) : string :=
  match l with
  | [] => EmptyString
  | c :: l' => String c (string_of_list l')
  end.

(** The double quote, and a helper that lets test inputs be written with
    apostrophes in place of double quotes. *)
Definition dq : ascii := "034"%char.

Fixpoint dquote (s : string) : string :=
  match s with
  | EmptyString => EmptyString
  | String c s' => String (if code c =? 39 then dq else c) (dquote s')
  end.

(** ** [strings]

    [strings.Split(s, sep)] for a one-byte separator: the result always has
    at least one element (the whole string when [sep] does not occur). *)
Fixpoint Split (s : string) (sep : ascii) : list string :=
  match s with
  | EmptyString => [EmptyString]
  | String c s' =>
      if Ascii.eqb c sep then EmptyString :: Split s' sep
      else match Split s' sep with
           | tok :: toks => String c tok :: toks
           | [] => [String c EmptyString]
           end
  end.

(** [strings.Cut(s, sep)] for a one-byte separator: the text before and
    after its first occurrence. *)
Fixpoint Cut (s : string) (sep : ascii) : string * string :=
  match s with
  | EmptyString => (EmptyString, EmptyString)
  | String c s' =>
      if Ascii.eqb c sep then (EmptyString, s')
      else let '(before, after) := Cut s' sep in (String c before, after)
  end.

(** [strings.Contains(s, sep)] for a one-byte [sep]. *)
Fixpoint Contains (s : string) (c : ascii) : bool :=
  match s with
  | EmptyString => false
  | String d s' => Ascii.eqb d c || Contains s' c
  end.

(** ** JSON syntax, as [encoding/json] scans it *)

Module JSON.

#[warnings="-register-all"]
Inductive json :=
| JNull
| JBool (b : bool)
| JNumber (lit : string)
| JString (s : string)
| JArray (elems : list json)
| JObject (members : list (string * json)).

Inductive token :=
| TLBrace | TRBrace | TLBracket | TRBracket | TColon | TComma
| TString (s : string) | TNumber (lit : string)
| TTrue | TFalse | TNull.

(** What a string literal is made of before unquoting: a source byte, or
    the 16-bit unit of a [\uXXXX] escape. *)
Inductive sitem := SByte (c : ascii) | SUnit (u : N).

(** UTF-8 encoding of a code point ([utf8.EncodeRune]). *)
Definition encode_rune (r : N) : list ascii :=
  if r <? 128 then [byte r]
  else if r <? 2048 then
    [byte (192 + N.shiftr r 6); byte (128 + N.land r 63)]
  else if r <? 65536 then
    [byte (224 + N.shiftr r 12); byte (128 + N.land (N.shiftr r 6) 63);
     byte (128 + N.land r 63)]
  else
    [byte (240 + N.shiftr r 18); byte (128 + N.land (N.shiftr r 12) 63);
     byte (128 + N.land (N.shiftr r 6) 63); byte (128 + N.land r 63)].

(** U+FFFD, what malformed input is coerced to. *)
Definition replacement : list ascii := encode_rune 65533.

Definition is_cont (i : sitem) : bool :=
  match i with SByte c => in_range 128 191 c | SUnit _ => false end.

Definition cont_in (lo hi : N) (i : sitem) : bool :=
  match i with SByte c => in_range lo hi c | SUnit _ => false end.

(** [utf8_tail c rest]: when the source bytes starting with the non-ASCII
    byte [c] begin a well-formed UTF-8 sequence, the number of continuation
    bytes that follow [c] ([utf8.DecodeRune]'s acceptance table). *)
Definition utf8_tail (c : ascii) (rest : list sitem) : option nat :=
  let n := code c in
  if in_range 194 223 c then
    match rest with
    | i1 :: _ => if is_cont i1 then Some 1%nat else None
    | _ => None
    end
  else if in_range 224 239 c then
    match rest with
    | i1 :: i2 :: _ =>
        let lo := if n =? 224 then 160 else 128 in
        let hi := if n =? 237 then 159 else 191 in
        if cont_in lo hi i1 && is_cont i2 then Some 2%nat else None
    | _ => None
    end
  else if in_range 240 244 c then
    match rest with
    | i1 :: i2 :: i3 :: _ =>
        let lo := if n =? 240 then 144 else 128 in
        let hi := if n =? 244 then 143 else 191 in
        if cont_in lo hi i1 && is_cont i2 && is_cont i3 then Some 3%nat
        else None
    | _ => None
    end
  else None.

Definition is_surrogate (u : N) : bool := (55296 <=? u) && (u <? 57344).

(** [utf16.DecodeRune]: a high surrogate followed by a low one. *)
Definition surrogate_pair (hi lo : N) : option N :=
  if (55296 <=? hi) && (hi <? 56320) && (56320 <=? lo) && (lo <? 57344)
  then Some (N.shiftl (hi - 55296) 10 + (lo - 56320) + 65536)
  else None.

(** [unquote]: the bytes of a string literal.  Escapes are replaced,
    surrogate pairs are joined, and whatever is not well-formed UTF-8 (a
    stray byte, a lone surrogate) becomes U+FFFD.  [keep] counts the
    continuation bytes already accepted as part of the current rune. *)
Fixpoint unquote (keep : nat) (items : list sitem) : list ascii :=
  match items with
  | [] => []
  | SByte c :: rest =>
      match keep with
      | S k => c :: unquote k rest
      | O =>
          if code c <? 128 then c :: unquote O rest
          else match utf8_tail c rest with
               | Some n => c :: unquote n rest
               | None => replacement ++ unquote O rest
               end
      end
  | SUnit u :: rest =>
      if is_surrogate u then
        match rest with
        | SUnit v :: rest' =>
            match surrogate_pair u v with
            | Some r => encode_rune r ++ unquote O rest'
            | None => replacement ++ unquote O rest
            end
        | _ => replacement ++ unquote O rest
        end
      else encode_rune u ++ unquote O rest
  end.

(** The scanner's number states. *)
Inductive numstate :=
| NNeg | N0 | N1 | NDot | NDot0 | NE | NESign | NE0.

(** Lexer states; accumulators are kept in reverse. *)
Inductive lstate :=
| LStart
| LStr (acc : list sitem)
| LEsc (acc : list sitem)
| LHex (acc : list sitem) (more : nat) (v : N)
| LNum (st : numstate) (acc : list ascii)
| LLit (rest : list ascii) (t : token).

Definition is_space (c : ascii) : bool :=
  let n := code c in (n =? 32) || (n =? 9) || (n =? 13) || (n =? 10).

(** The character an escape letter stands for. *)
Definition escape_char (c : ascii) : option ascii :=
  let n := code c in
  if (n =? 34) || (n =? 92) || (n =? 47) then Some c
  else if n =? 98 then Some (byte 8)
  else if n =? 102 then Some (byte 12)
  else if n =? 110 then Some (byte 10)
  else if n =? 114 then Some (byte 13)
  else if n =? 116 then Some (byte 9)
  else None.

(** One step of a number: [Some (Some st')] continues it, [Some None]
    ends it before [c], [None] is a syntax error. *)
Definition num_step (st : numstate) (c : ascii) : option (option numstate) :=
  let n := code c in
  let is_e := (n =? 101) || (n =? 69) in
  match st with
  | NNeg => if n =? 48 then Some (Some N0)
            else if is_digit19 c then Some (Some N1) else None
  | N0 => if n =? 46 then Some (Some NDot)
          else if is_e then Some (Some NE) else Some None
  | N1 => if is_digit c then Some (Some N1)
          else if n =? 46 then Some (Some NDot)
          else if is_e then Some (Some NE) else Some None
  | NDot => if is_digit c then Some (Some NDot0) else None
  | NDot0 => if is_digit c then Some (Some NDot0)
             else if is_e then Some (Some NE) else Some None
  | NE => if (n =? 43) || (n =? 45) then Some (Some NESign)
          else if is_digit c then Some (Some NE0) else None
  | NESign => if is_digit c then Some (Some NE0) else None
  | NE0 => if is_digit c then Some (Some NE0) else Some None
  end.

Definition num_final (st : numstate) : bool :=
  match st with N0 | N1 | NDot0 | NE0 => true | _ => false end.

(** The first byte of a token. *)
Definition lex_start (c : ascii) (out : list token)
  : option (lstate * list token) :=
  let n := code c in
  if is_space c then Some (LStart, out)
  else if n =? 123 then Some (LStart, TLBrace :: out)
  else if n =? 125 then Some (LStart, TRBrace :: out)
  else if n =? 91 then Some (LStart, TLBracket :: out)
  else if n =? 93 then Some (LStart, TRBracket :: out)
  else if n =? 58 then Some (LStart, TColon :: out)
  else if n =? 44 then Some (LStart, TComma :: out)
  else if n =? 34 then Some (LStr [], out)
  else if n =? 45 then Some (LNum NNeg [c], out)
  else if n =? 48 then Some (LNum N0 [c], out)
  else if is_digit19 c then Some (LNum N1 [c], out)
  else if n =? 116 then Some (LLit (list_ascii_of_string "rue") TTrue, out)
  else if n =? 102 then Some (LLit (list_ascii_of_string "alse") TFalse, out)
  else if n =? 110 then Some (LLit (list_ascii_of_string "ull") TNull, out)
  else None.

Definition string_token (acc : list sitem) : token :=
  TString (string_of_list (unquote O (rev acc))).

Definition number_token (acc : list ascii) : token :=
  TNumber (string_of_list (rev acc)).

Definition lex_step (st : lstate) (c : ascii) (out : list token)
  : option (lstate * list token) :=
  match st with
  | LStart => lex_start c out
  | LStr acc =>
      if code c =? 34 then Some (LStart, string_token acc :: out)
      else if code c =? 92 then Some (LEsc acc, out)
      else if code c <? 32 then None
      else Some (LStr (SByte c :: acc), out)
  | LEsc acc =>
      if code c =? 117 then Some (LHex acc 4 0, out)
      else match escape_char c with
           | Some e => Some (LStr (SByte e :: acc), out)
           | None => None
           end
  | LHex acc more v =>
      match hex_val c with
      | Some h =>
          let v' := 16 * v + h in
          match more with
          | S (S k) => Some (LHex acc (S k) v', out)
          | _ => Some (LStr (SUnit v' :: acc), out)
          end
      | None => None
      end
  | LNum ns acc =>
      match num_step ns c with
      | Some (Some ns') => Some (LNum ns' (c :: acc), out)
      | Some None => lex_start c (number_token acc :: out)
      | None => None
      end
  | LLit rest t =>
      match rest with
      | e :: rest' =>
          if Ascii.eqb c e then
            match rest' with
            | [] => Some (LStart, t :: out)
            | _ => Some (LLit rest' t, out)
            end
          else None
      | [] => None
      end
  end.

Fixpoint lex (st : lstate) (out : list token) (s : string)
  : option (list token) :=
  match s with
  | EmptyString =>
      match st with
      | LStart => Some (rev out)
      | LNum ns acc =>
          if num_final ns then Some (rev (number_token acc :: out)) else None
      | _ => None
      end
  | String c s' =>
      match lex_step st c out with
      | Some (st', out') => lex st' out' s'
      | None => None
      end
  end.

(** The parser is the scanner's pushdown automaton over tokens.  A frame
    is an open array or object with what it holds so far (in reverse); an
    object frame also holds the key whose value is being read. *)
Inductive frame :=
| FArr (elems : list json)
| FObj (members : list (string * json)) (key : option string).

Inductive pstate :=
| PValue      (* a value must begin *)
| PArrFirst   (* after an opening bracket: a value or the closing bracket *)
| PObjFirst   (* after an opening brace: a key or the closing brace *)
| PKey        (* after a comma in an object: a key *)
| PColon      (* after a key *)
| PAfter      (* after a value inside an array or object *)
| PDone (v : json).

(** Arrays and objects nest to this depth at most. *)
Definition maxNestingDepth : N := 10000.

(** A finished value goes to the innermost open container, or ends the
    text. *)
Definition put (v : json) (stack : list frame) : option (pstate * list frame) :=
  match stack with
  | [] => Some (PDone v, [])
  | FArr es :: tl => Some (PAfter, FArr (v :: es) :: tl)
  | FObj ms (Some k) :: tl => Some (PAfter, FObj ((k, v) :: ms) None :: tl)
  | FObj _ None :: _ => None
  end.

Definition push (f : frame) (st : pstate) (stack : list frame)
  : option (pstate * list frame) :=
  if N.of_nat (length stack) <? maxNestingDepth then Some (st, f :: stack)
  else None.

Definition begin_value (t : token) (stack : list frame)
  : option (pstate * list frame) :=
  match t with
  | TLBrace => push (FObj [] None) PObjFirst stack
  | TLBracket => push (FArr []) PArrFirst stack
  | TString s => put (JString s) stack
  | TNumber l => put (JNumber l) stack
  | TTrue => put (JBool true) stack
  | TFalse => put (JBool false) stack
  | TNull => put JNull stack
  | _ => None
  end.

Definition close_array (stack : list frame) : option (pstate * list frame) :=
  match stack with
  | FArr es :: tl => put (JArray (rev es)) tl
  | _ => None
  end.

Definition close_object (stack : list frame) : option (pstate * list frame) :=
  match stack with
  | FObj ms None :: tl => put (JObject (rev ms)) tl
  | _ => None
  end.

Definition set_key (k : string) (stack : list frame)
  : option (pstate * list frame) :=
  match stack with
  | FObj ms None :: tl => Some (PColon, FObj ms (Some k) :: tl)
  | _ => None
  end.

Definition parse_step (st : pstate) (stack : list frame) (t : token)
  : option (pstate * list frame) :=
  match st with
  | PValue => begin_value t stack
  | PArrFirst =>
      match t with TRBracket => close_array stack | _ => begin_value t stack end
  | PObjFirst =>
      match t with
      | TRBrace => close_object stack
      | TString k => set_key k stack
      | _ => None
      end
  | PKey => match t with TString k => set_key k stack | _ => None end
  | PColon => match t with TColon => Some (PValue, stack) | _ => None end
  | PAfter =>
      match stack, t with
      | FArr _ :: _, TComma => Some (PValue, stack)
      | FArr _ :: _, TRBracket => close_array stack
      | FObj _ None :: _, TComma => Some (PKey, stack)
      | FObj _ None :: _, TRBrace => close_object stack
      | _, _ => None
      end
  | PDone _ => None
  end.

Fixpoint parse (st : pstate) (stack : list frame) (ts : list token)
  : option json :=
  match ts with
  | [] => match st with PDone v => Some v | _ => None end
  | t :: ts' =>
      match parse_step st stack t with
      | Some (st', stack') => parse st' stack' ts'
      | None => None
      end
  end.

(** [scan data]: the JSON value [data] denotes, [None] when [checkValid]
    reports a syntax error. *)
Definition scan (data : string) : option json :=
  match lex LStart [] data with
  | Some ts => parse PValue [] ts
  | None => None
  end.

End JSON.

Import JSON.

(** ** Errors

    A Go [error] value is an [option error], [None] being [nil]. *)
Inductive error :=
| SyntaxError            (* encoding/json: the text is not JSON *)
| UnmarshalTypeError     (* encoding/json: a value does not fit its target *)
| InvalidUnmarshalError  (* encoding/json: the target is not a non-nil pointer *)
| EscapeError            (* net/url: a malformed percent escape *)
| SemicolonError         (* net/url: a semicolon separator in a query *)
| MediaTypeError         (* mime: a malformed media type *)
| PostTooLarge           (* net/http: form body above the size limit *)
| MissingFormBody        (* net/http: form parsing without a body *)
| ReadError.             (* the body stream failed *)

(** [saveError]: the first error is the one kept. *)
Definition saveError (err : option error) (e : option error) : option error :=
  match err with Some _ => err | None => e end.

(** ** [net/url]: query strings *)

Module url.

(** [url.Values] is [map[string][]string]. *)
Abbreviation Values := (gmap string (list string)).

(** [Values.Get]: the first value of the key, or the empty string. *)
Definition Get (v : Values) (key : string) : string :=
  match v !! key with
  | Some (x :: _) => x
  | _ => ""
  end.

(** [url.QueryUnescape]: [%XX] becomes the byte, [+] a space. *)
Fixpoint QueryUnescape (s : string) : option string :=
  match s with
  | EmptyString => Some EmptyString
  | String c s' =>
      if code c =? 37 then
        match s' with
        | String a (String b s2) =>
            match hex_val a, hex_val b with
            | Some x, Some y => String (byte (16 * x + y)) <$> QueryUnescape s2
            | _, _ => None
            end
        | _ => None
        end
      else String (if code c =? 43 then " "%char else c) <$> QueryUnescape s'
  end.

(** One [&]-separated piece of a query, as the loop of [parseQuery]
    treats it: a piece with a semicolon is an error, an empty piece is
    skipped, a piece with a malformed escape is an error, and any other
    piece adds its value to those of its key. *)
Definition parsePair (st : Values * option error) (piece : string)
  : Values * option error :=
  let '(m, err) := st in
  if Contains piece ";"%char then (m, Some SemicolonError)
  else if String.eqb piece "" then (m, err)
  else
    let '(key, value) := Cut piece "="%char in
    match QueryUnescape key with
    | None => (m, saveError err (Some EscapeError))
    | Some key =>
        match QueryUnescape value with
        | None => (m, saveError err (Some EscapeError))
        | Some value => (<[key := (default [] (m !! key) ++ [value])%list]> m, err)
        end
    end.

(** [url.ParseQuery]: always a map, holding the pairs that could be
    decoded, and the error met, if any. *)
Definition ParseQuery (query : string) : Values * option error :=
  fold_left parsePair (Split query "&"%char) (∅, None).

End url.

(** ** Values of type [interface{}] that [encoding/json] produces

    A JSON number becomes a [float64]; floating point is not modelled, and
    the number is kept as its literal. *)
#[warnings="-register-all"]
Inductive iface :=
| INil
| IBool (b : bool)
| IFloat (lit : string)
| IString (s : string)
| ISlice (elems : list iface)
| IMap (m : gmap string iface).

(** [map[string]interface{}]; a nil map is [None]. *)
Abbreviation VarMap := (option (gmap string iface)).

(** ** The structs of the handler *)

Record RequestOptions := {
  Query : string;
  Variables : VarMap;
  OperationName : string
}.

(** a workaround for getting `variables` as a JSON string *)
Record requestOptionsCompatibility := {
  cQuery : string;
  cVariables : string;
  cOperationName : string
}.

(** The zero values [RequestOptions{}] and
    [requestOptionsCompatibility{}]. *)
Definition zeroRequestOptions : RequestOptions :=
  {| Query := ""; Variables := None; OperationName := "" |}.

Definition zeroCompatibility : requestOptionsCompatibility :=
  {| cQuery := ""; cVariables := ""; cOperationName := "" |}.

(** ** [encoding/json]: [Unmarshal] into the handler's targets *)

Module json.

(** The value stored into an [interface{}]. *)
Fixpoint valueInterface (v : JSON.json) : iface :=
  match v with
  | JNull => INil
  | JBool b => IBool b
  | JNumber lit => IFloat lit
  | JString s => IString s
  | JArray elems => ISlice (map valueInterface elems)
  | JObject members =>
      IMap (fold_left (fun m kv => let '(k, x) := kv in <[k := valueInterface x]> m)
                      members ∅)
  end.

(** An object stored into a map: the entries are set one by one, in the
    order of the text, over what the map already holds. *)
Definition objectInto (members : list (string * JSON.json))
    (m : gmap string iface) : gmap string iface :=
  fold_left (fun m kv => let '(k, x) := kv in <[k := valueInterface x]> m)
            members m.

(** A JSON value stored into a [string] field: a string is set, [null]
    leaves the field alone, anything else is a type error and leaves the
    field alone. *)
Definition storeString (v : JSON.json) (cur : string) : string * option error :=
  match v with
  | JString s => (s, None)
  | JNull => (cur, None)
  | _ => (cur, Some UnmarshalTypeError)
  end.

(** A JSON value stored into a [map[string]interface{}]: an object fills
    the map (made first when it is nil), [null] makes it nil, anything
    else is a type error. *)
Definition storeMap (v : JSON.json) (cur : VarMap) : VarMap * option error :=
  match v with
  | JObject members => (Some (objectInto members (default ∅ cur)), None)
  | JNull => (None, None)
  | _ => (cur, Some UnmarshalTypeError)
  end.

(** The fields of both structs, by their [json] tags. *)
Inductive field := FQuery | FVariables | FOperationName.

Definition fieldName (f : field) : string :=
  match f with
  | FQuery => "query"
  | FVariables => "variables"
  | FOperationName => "operationName"
  end.

Definition fields : list field := [FQuery; FVariables; FOperationName].

(** Case folding of a key for the match against the (ASCII) field names:
    ASCII letters go to upper case, and the two runes outside ASCII that
    fold to an ASCII letter, U+017F and U+212A, go to S and K.  Every other
    byte is kept: no other rune folds into ASCII. *)
Fixpoint foldName (s : string) : string :=
  match s with
  | EmptyString => EmptyString
  | String c s1 =>
      if in_range 97 122 c then String (byte (code c - 32)) (foldName s1)
      else
        match s1 with
        | String d s2 =>
            if (code c =? 197) && (code d =? 191)
            then String "S"%char (foldName s2)
            else
              match s2 with
              | String e s3 =>
                  if (code c =? 226) && (code d =? 132) && (code e =? 170)
                  then String "K"%char (foldName s3)
                  else String c (foldName s1)
              | EmptyString => String c (foldName s1)
              end
        | EmptyString => String c EmptyString
        end
  end.

(** The field a key of the object goes to: the one with exactly that
    name, else the first whose name matches when case is ignored. *)
Definition findField (key : string) : option field :=
  match List.find (fun f => String.eqb (fieldName f) key) fields with
  | Some f => Some f
  | None =>
      List.find (fun f => String.eqb (foldName (fieldName f)) (foldName key))
                fields
  end.

(** One member of the object decoded into a [RequestOptions].  A type
    error is saved and decoding goes on. *)
Definition memberInto (st : RequestOptions * option error)
    (kv : string * JSON.json) : RequestOptions * option error :=
  let '(o, err) := st in
  let '(key, v) := kv in
  match findField key with
  | Some FQuery =>
      let '(q, e) := storeString v (Query o) in
      ({| Query := q; Variables := Variables o;
          OperationName := OperationName o |}, saveError err e)
  | Some FVariables =>
      let '(m, e) := storeMap v (Variables o) in
      ({| Query := Query o; Variables := m;
          OperationName := OperationName o |}, saveError err e)
  | Some FOperationName =>
      let '(n, e) := storeString v (OperationName o) in
      ({| Query := Query o; Variables := Variables o;
          OperationName := n |}, saveError err e)
  | None => st
  end.

(** One member of the object decoded into a
    [requestOptionsCompatibility]. *)
Definition memberIntoCompat (st : requestOptionsCompatibility * option error)
    (kv : string * JSON.json) : requestOptionsCompatibility * option error :=
  let '(o, err) := st in
  let '(key, v) := kv in
  match findField key with
  | Some FQuery =>
      let '(q, e) := storeString v (cQuery o) in
      ({| cQuery := q; cVariables := cVariables o;
          cOperationName := cOperationName o |}, saveError err e)
  | Some FVariables =>
      let '(m, e) := storeString v (cVariables o) in
      ({| cQuery := cQuery o; cVariables := m;
          cOperationName := cOperationName o |}, saveError err e)
  | Some FOperationName =>
      let '(n, e) := storeString v (cOperationName o) in
      ({| cQuery := cQuery o; cVariables := cVariables o;
          cOperationName := n |}, saveError err e)
  | None => st
  end.

(** [json.Unmarshal(data, &opts)] with [opts] a [RequestOptions]. *)
Definition UnmarshalOptions (data : string) (opts : RequestOptions)
  : RequestOptions * option error :=
  match scan data with
  | None => (opts, Some SyntaxError)
  | Some (JObject members) => fold_left memberInto members (opts, None)
  | Some JNull => (opts, None)
  | Some _ => (opts, Some UnmarshalTypeError)
  end.

(** [json.Unmarshal(data, &opts)] with [opts] a
    [requestOptionsCompatibility]. *)
Definition UnmarshalCompat (data : string) (opts : requestOptionsCompatibility)
  : requestOptionsCompatibility * option error :=
  match scan data with
  | None => (opts, Some SyntaxError)
  | Some (JObject members) => fold_left memberIntoCompat members (opts, None)
  | Some JNull => (opts, None)
  | Some _ => (opts, Some UnmarshalTypeError)
  end.

(** [json.Unmarshal(data, &m)] with [m] a [map[string]interface{}]. *)
Definition UnmarshalMapPtr (data : string) (m : VarMap) : VarMap * option error :=
  match scan data with
  | None => (m, Some SyntaxError)
  | Some v => storeMap v m
  end.

(** [json.Unmarshal(data, m)] with the map [m] itself as the target, not a
    pointer to it: after the syntax check the target is refused, and
    nothing is stored. *)
Definition UnmarshalMapValue (data : string) (m : VarMap) : VarMap * option error :=
  match scan data with
  | None => (m, Some SyntaxError)
  | Some _ => (m, Some InvalidUnmarshalError)
  end.

End json.

(** ** [net/http]: the incoming request *)

(** The body stream ([io.ReadCloser]): the bytes not read yet, the error
    the stream reports once they have been delivered, if any, and how many
    times the stream has been read. *)
Record Reader := {
  pending : string;
  fault : option error;
  reads : nat
}.

(** [http.Header] is [map[string][]string]. *)
Abbreviation Header := (gmap string (list string)).

(** The request as the server hands it to the handler.  [RawQuery] is
    [r.URL.RawQuery]; [Body], [Form] and [PostForm] are [None] when nil. *)
Record Request := {
  Method : string;
  RawQuery : string;
  Headers : Header;
  Body : option Reader;
  Form : option url.Values;
  PostForm : option url.Values
}.

(** [Header.Get]: the first value under the key, or the empty string.  The
    only key looked up, [Content-Type], is in canonical form already. *)
Definition Header_Get (h : Header) (key : string) : string :=
  match h !! key with
  | Some (x :: _) => x
  | _ => ""
  end.

(** [r.URL.Query()]: the query string parsed, its errors dropped. *)
Definition URL_Query (r : Request) : url.Values := (url.ParseQuery (RawQuery r)).1.

(** ** Handler code runs on a request it may change, and may panic *)

Inductive outcome (A : Type) :=
| Return (a : A) (r : Request)
| Panic (msg : string).
Arguments Return {A} a r.
Arguments Panic {A} msg.

Definition M (A : Type) : Type := Request → outcome A.

#[global] Instance M_ret : MRet M := λ A a r, Return a r.
#[global] Instance M_bind : MBind M := λ A B f m r,
  match m r with
  | Return a r' => f a r'
  | Panic msg => Panic msg
  end.

Definition gets {A} (f : Request → A) : M A := λ r, Return (f r) r.
Definition panic {A} (msg : string) : M A := λ _, Panic msg.

(** [l[i]]: indexing a slice panics out of range. *)
Definition index (l : list string) (i : nat) : M string :=
  match l !! i with
  | Some x => mret x
  | None => panic "index out of range"
  end.

Definition setBody (b : Reader) : M unit := λ r,
  Return tt {| Method := Method r; RawQuery := RawQuery r; Headers := Headers r;
               Body := Some b; Form := Form r; PostForm := PostForm r |}.

Definition setPostForm (v : url.Values) : M unit := λ r,
  Return tt {| Method := Method r; RawQuery := RawQuery r; Headers := Headers r;
               Body := Body r; Form := Form r; PostForm := Some v |}.

Definition setForm (v : url.Values) : M unit := λ r,
  Return tt {| Method := Method r; RawQuery := RawQuery r; Headers := Headers r;
               Body := Body r; Form := Some v; PostForm := PostForm r |}.

Definition drained (b : Reader) : Reader :=
  {| pending := ""; fault := fault b; reads := S (reads b) |}.

(** [ioutil.ReadAll(r.Body)]: everything that is left of the body, and the
    stream's error. *)
Definition ReadAll (b : Reader) : M (string * option error) :=
  _ ← setBody (drained b); mret (pending b, fault b).

Fixpoint splitAt (n : N) (s : string) : string * string :=
  match s with
  | EmptyString => (EmptyString, EmptyString)
  | String c s' =>
      if n =? 0 then (EmptyString, s)
      else let '(a, b) := splitAt (N.pred n) s' in (String c a, b)
  end.

(** [io.ReadAll(io.LimitReader(r.Body, n))]: at most [n] bytes; the
    stream's error shows only when fewer than [n] bytes were left. *)
Definition ReadAllLimited (n : N) (b : Reader) : M (string * option error) :=
  if N.of_nat (String.length (pending b)) <? n then ReadAll b
  else
    let '(head, tail) := splitAt n (pending b) in
    _ ← setBody {| pending := tail; fault := fault b; reads := S (reads b) |};
    mret (head, None).

Definition maxFormSize : N := 10485760.

(** [copyValues(dst, src)]: the values of [src] are appended to those of
    [dst], key by key. *)
Definition copyValues (dst src : url.Values) : url.Values :=
  union_with (λ a b, Some (a ++ b)%list) dst src.

(** ** Constants of the handler *)

Definition ContentTypeJSON : string := "application/json".
Definition ContentTypeGraphQL : string := "application/graphql".
Definition ContentTypeFormURLEncoded : string := "application/x-www-form-urlencoded".

(** ** [getFromForm] *)

Definition getFromForm (values : url.Values) : option RequestOptions :=
  let query := url.Get values "query" in
  if negb (String.eqb query "") then
    (* get variables map *)
    let variables : VarMap := None in
    let variablesStr := url.Get values "variables" in
    let '(variables, _) := json.UnmarshalMapValue variablesStr variables in
    Some {| Query := query;
            Variables := variables;
            OperationName := url.Get values "operationName" |}
  else None.

Section Decoder.

(** [mime.ParseMediaType], which [ParseForm] applies to the whole
    [Content-Type] value: the media type it finds and its error.  Its
    parsing of the parameters is left open. *)
Variable ParseMediaType : string → string * option error.

(** [parsePostForm] of [net/http]. *)
Definition parsePostForm : M (option url.Values * option error) :=
  body ← gets Body;
  match body with
  | None => mret (None, Some MissingFormBody)
  | Some b =>
      ct ← gets (λ r, Header_Get (Headers r) "Content-Type");
      let ct := if String.eqb ct "" then "application/octet-stream" else ct in
      let '(ct, err) := ParseMediaType ct in
      if String.eqb ct "application/x-www-form-urlencoded" then
        '(data, e) ← ReadAllLimited (maxFormSize + 1) b;
        match e with
        | Some _ => mret (None, saveError err e)
        | None =>
            if maxFormSize <? N.of_nat (String.length data)
            then mret (None, Some PostTooLarge)
            else
              let '(vs, e) := url.ParseQuery data in
              mret (Some vs, saveError err e)
        end
      else mret (None, err)
  end.

(** The second half of [ParseForm]: [r.Form], when nil, is made of
    [r.PostForm] and the parsed URL query. *)
Definition fillForm (err : option error) : M (option error) :=
  form ← gets Form;
  match form with
  | Some _ => mret err
  | None =>
      postForm ← gets PostForm;
      rawQuery ← gets RawQuery;
      let '(newValues, e) := url.ParseQuery rawQuery in
      _ ← setForm (copyValues (default ∅ postForm) newValues);
      mret (saveError err e)
  end.

(** [Request.ParseForm] of [net/http]. *)
Definition ParseForm : M (option error) :=
  postForm ← gets PostForm;
  err ← match postForm with
        | Some _ => mret None
        | None =>
            method ← gets Method;
            '(vs, err) ←
              (if String.eqb method "POST" || String.eqb method "PUT"
                  || String.eqb method "PATCH"
               then parsePostForm else mret (None, None));
            _ ← setPostForm (default ∅ vs);
            mret err
        end;
  fillForm err.

(** The [switch contentType] of [NewRequestOptions]: the first case that
    equals the string is taken; [ContentTypeJSON] falls through to the
    default case. *)
Inductive switchCase := CaseGraphQL | CaseFormURLEncoded | CaseDefault.

Definition switchContentType (contentType : string) : switchCase :=
  if String.eqb contentType ContentTypeGraphQL then CaseGraphQL
  else if String.eqb contentType ContentTypeFormURLEncoded then CaseFormURLEncoded
  else if String.eqb contentType ContentTypeJSON then CaseDefault (* fallthrough *)
  else CaseDefault.

(** The bodies of the three cases; [rBody] is [r.Body], known not to be
    nil. *)
Definition caseBody (c : switchCase) (rBody : Reader) : M (option RequestOptions) :=
  match c with
  | CaseGraphQL =>
      '(body, err) ← ReadAll rBody;
      match err with
      | Some _ => mret (Some zeroRequestOptions)
      | None =>
          mret (Some {| Query := body; Variables := None; OperationName := "" |})
      end
  | CaseFormURLEncoded =>
      err ← ParseForm;
      match err with
      | Some _ => mret (Some zeroRequestOptions)
      | None =>
          postForm ← gets PostForm;
          match getFromForm (default ∅ postForm) with
          | Some reqOpt => mret (Some reqOpt)
          | None => mret (Some zeroRequestOptions)
          end
      end
  | CaseDefault =>
      let opts := zeroRequestOptions in
      '(body, err) ← ReadAll rBody;
      match err with
      | Some _ => mret (Some opts)
      | None =>
          let '(opts, err) := json.UnmarshalOptions body opts in
          match err with
          | Some _ =>
              (* Probably `variables` was sent as a string instead of an
                 object.  So, we try to be polite and try to parse that as
                 a JSON string *)
              let optsCompatible := zeroCompatibility in
              let '(optsCompatible, _) :=
                json.UnmarshalCompat body optsCompatible in
              let '(variables, _) :=
                json.UnmarshalMapPtr (cVariables optsCompatible)
                                     (Variables opts) in
              mret (Some {| Query := Query opts; Variables := variables;
                            OperationName := OperationName opts |})
          | None => mret (Some opts)
          end
      end
  end.

(** ** [NewRequestOptions]

    RequestOptions Parses a http.Request into GraphQL request options
    struct.  The result is a pointer: [None] would be nil. *)
Definition NewRequestOptions : M (option RequestOptions) :=
  query ← gets URL_Query;
  match getFromForm query with
  | Some reqOpt => mret (Some reqOpt)
  | None =>
      method ← gets Method;
      if negb (String.eqb method "POST") then mret (Some zeroRequestOptions)
      else
        body ← gets Body;
        match body with
        | None => mret (Some zeroRequestOptions)
        | Some rBody =>
            contentTypeStr ← gets (λ r, Header_Get (Headers r) "Content-Type");
            let contentTypeTokens := Split contentTypeStr ";"%char in
            contentType ← index contentTypeTokens 0;
            caseBody (switchContentType contentType) rBody
        end
  end.

End Decoder.

(** ** An object read field by field

    Decoding an object into a struct goes member by member; what a field
    ends up with depends on the members routed to it only. *)

Definition sameField (f g : json.field) : bool :=
  match f, g with
  | json.FQuery, json.FQuery => true
  | json.FVariables, json.FVariables => true
  | json.FOperationName, json.FOperationName => true
  | _, _ => false
  end.

(** The values of the members that go to field [f], in the order of the
    text. *)
Definition routed (f : json.field) (members : list (string * JSON.json))
  : list JSON.json :=
  omap (λ kv : string * JSON.json,
          match json.findField kv.1 with
          | Some g => if sameField f g then Some kv.2 else None
          | None => None
          end) members.

(** A field after these values have been stored into it one by one. *)
Definition stringAfter (vs : list JSON.json) (cur : string) : string :=
  fold_left (λ cur v, (json.storeString v cur).1) vs cur.

Definition mapAfter (vs : list JSON.json) (cur : VarMap) : VarMap :=
  fold_left (λ cur v, (json.storeMap v cur).1) vs cur.

(** The values that can be stored: a string or [null] into a string, an
    object or [null] into a map. *)
Definition fitsString (v : JSON.json) : bool :=
  match v with JString _ | JNull => true | _ => false end.

Definition fitsMap (v : JSON.json) : bool :=
  match v with JObject _ | JNull => true | _ => false end.

(** The error left by a decoding pass over these members. *)
Definition misfit (members : list (string * JSON.json)) : option error :=
  if forallb fitsString (routed json.FQuery members)
     && forallb fitsMap (routed json.FVariables members)
     && forallb fitsString (routed json.FOperationName members)
  then None else Some UnmarshalTypeError.

(** The value of the header that the dispatch reads, and the first
    [;]-delimited token of a header value. *)
Definition contentTypeOf (r : Request) : string :=
  Header_Get (Headers r) "Content-Type".

Definition firstToken (v : string) : string := (Cut v ";"%char).1.

(** What the theorems observe of a run: the pointer returned and the body
    stream as the run leaves it. *)
Definition answer (o : outcome (option RequestOptions))
  : option (option RequestOptions * option Reader) :=
  match o with
  | Return a r' => Some (a, Body r')
  | Panic _ => None
  end.

(** The request with its [Content-Type] header set to [v]. *)
Definition withContentType (r : Request) (v : string) : Request :=
  {| Method := Method r; RawQuery := RawQuery r;
     Headers := <["Content-Type" := [v]]> (Headers r);
     Body := Body r; Form := Form r; PostForm := PostForm r |}.

(** The request with its body stream replaced. *)
Definition withBody (r : Request) (b : Reader) : Request :=
  {| Method := Method r; RawQuery := RawQuery r; Headers := Headers r;
     Body := Some b; Form := Form r; PostForm := PostForm r |}.

(** A stand-in for [mime.ParseMediaType] on header values whose
    parameters are well-formed: the media type is the text before the
    first [;], in lower case and without surrounding blanks, and the
    parameters are not looked at. *)
Fixpoint ToLower (s : string) : string :=
  match s with
  | EmptyString => EmptyString
  | String c s' =>
      String (if in_range 65 90 c then byte (code c + 32) else c) (ToLower s')
  end.

Definition is_blank (c : ascii) : bool :=
  (code c =? 32) || in_range 9 13 c.

Fixpoint TrimLeft (s : string) : string :=
  match s with
  | String c s' => if is_blank c then TrimLeft s' else s
  | EmptyString => EmptyString
  end.

Fixpoint TrimRight (s : string) : string :=
  match s with
  | EmptyString => EmptyString
  | String c s' =>
      match TrimRight s' with
      | EmptyString => if is_blank c then EmptyString else String c EmptyString
      | t => String c t
      end
  end.

Definition plainMediaType (v : string) : string * option error :=
  let mediatype := TrimRight (TrimLeft (ToLower (Cut v ";"%char).1)) in
  if String.eqb mediatype "" then ("", Some MediaTypeError)
  else (mediatype, None).

(** A request as it arrives: one [Content-Type] header, an unread body,
    no form parsed yet. *)
Definition newBody (data : string) : Reader :=
  {| pending := data; fault := None; reads := 0 |}.

Definition newRequest (method rawQuery contentType : string)
    (body : option string) : Request :=
  {| Method := method; RawQuery := rawQuery;
     Headers := {[ "Content-Type" := [contentType] ]};
     Body := newBody <$> body; Form := None; PostForm := None |}.

(** ** Sample requests *)

Module Samples.

(** A POST with a JSON body and a query string that carries a query. *)
Definition queryString : Request :=
  newRequest "POST" "query=foo&operationName=bar" "application/json"
    (Some (dquote "{'query':'{a}','operationName':'Op'}")).

(** The same query string on a GET without body. *)
Definition queryStringGet : Request :=
  newRequest "GET" "query=foo&operationName=bar" "" None.

(** A GET whose query string carries [variables={"a":1}]. *)
Definition queryVariables : Request :=
  newRequest "GET" "query=foo&variables=%7B%22a%22%3A1%7D" "" None.

(** A form body that carries [variables={"a":1}]. *)
Definition formVariables : Request :=
  newRequest "POST" "" "application/x-www-form-urlencoded"
    (Some "query=%7Bfield%7D&operationName=Op&variables=%7B%22a%22%3A1%7D").

Definition plainGet : Request := newRequest "GET" "" "" None.

Definition postNoBody : Request := newRequest "POST" "" "application/json" None.

Definition graphql : Request :=
  newRequest "POST" "" "application/graphql" (Some "query { field }").

Definition jsonText : string :=
  dquote "{'query':'{a}','variables':{'x':1},'operationName':'Op'}".

Definition jsonBody : Request :=
  newRequest "POST" "" "application/json" (Some jsonText).

(** [variables] sent as a string that holds a JSON object. *)
Definition stringVariablesText : string :=
  dquote "{'query':'{a}','variables':'{\'x\':1}','operationName':'Op'}".

Definition stringVariables : Request :=
  newRequest "POST" "" "application/json" (Some stringVariablesText).

(** [variables] sent as a string that is not JSON. *)
Definition badVariablesText : string :=
  dquote "{'query':'{a}','variables':'{x:1','operationName':'Op'}".

Definition badVariables : Request :=
  newRequest "POST" "" "application/json" (Some badVariablesText).

(** A body that is not JSON. *)
Definition badJson : Request :=
  newRequest "POST" "" "application/json" (Some (dquote "{'query':")).

(** A form body with a malformed percent escape. *)
Definition badForm : Request :=
  newRequest "POST" "" "application/x-www-form-urlencoded" (Some "query=%zz").

End Samples.

(** ** Construction of the handler

    [schema] stands for [graphql.Schema]; a [*graphql.Schema] is an
    [option schema], [None] being nil.  [New] either returns a handler or
    panics. *)
Inductive result (A : Type) :=
| Ok (a : A)
| Panics (msg : string).
Arguments Ok {A} a.
Arguments Panics {A} msg.

(** [time.Duration] and [int64] are integers. *)
Definition RequestCallbackFn : Type := Z → string → string → string → Z → unit.

Module Handler.
Record t (schema : Type) := {
  Schema : option schema;
  Pretty : bool;
  BeforeRequest : RequestCallbackFn;
  AfterRequest : RequestCallbackFn
}.
Arguments Schema {schema} _.
Arguments Pretty {schema} _.
Arguments BeforeRequest {schema} _.
Arguments AfterRequest {schema} _.
End Handler.

Module Config.
Record t (schema : Type) := {
  Schema : option schema;
  Pretty : bool;
  BeforeRequest : RequestCallbackFn;
  AfterRequest : RequestCallbackFn
}.
Arguments Schema {schema} _.
Arguments Pretty {schema} _.
Arguments BeforeRequest {schema} _.
Arguments AfterRequest {schema} _.
End Config.

Definition NewConfig {schema : Type} : Config.t schema :=
  {| Config.Schema := None;
     Config.Pretty := true;
     Config.BeforeRequest := λ elapsed url query token id, tt;
     Config.AfterRequest := λ elapsed url query token id, tt |}.

(** [p] is a [*Config]: [None] is the nil pointer. *)
Definition New {schema : Type} (p : option (Config.t schema))
  : result (Handler.t schema) :=
  let p := match p with None => NewConfig | Some p => p end in
  match Config.Schema p with
  | None => Panics "undefined GraphQL schema"
  | Some _ =>
      Ok {| Handler.Schema := Config.Schema p;
            Handler.Pretty := Config.Pretty p;
            Handler.BeforeRequest := Config.BeforeRequest p;
            Handler.AfterRequest := Config.AfterRequest p |}
  end.

(** The variant of the package with slow-response logging and stack
    traces ([part_000]). *)
Module Part000.

Module Handler.
Record t (schema : Type) := {
  Schema : option schema;
  Pretty : bool;
  LogSlowResponses : bool;
  ShowFullStackTrace : bool
}.
Arguments Schema {schema} _.
Arguments Pretty {schema} _.
Arguments LogSlowResponses {schema} _.
Arguments ShowFullStackTrace {schema} _.
End Handler.

Module Config.
Record t (schema : Type) := {
  Schema : option schema;
  Pretty : bool;
  LogSlowResponses : bool;
  ShowFullStackTrace : bool
}.
Arguments Schema {schema} _.
Arguments Pretty {schema} _.
Arguments LogSlowResponses {schema} _.
Arguments ShowFullStackTrace {schema} _.
End Config.

Definition NewConfig {schema : Type} : Config.t schema :=
  {| Config.Schema := None;
     Config.Pretty := true;
     Config.LogSlowResponses := false;
     Config.ShowFullStackTrace := false |}.

(** The composite literal names three fields; [ShowFullStackTrace] is not
    among them and keeps its zero value. *)
Definition New {schema : Type} (p : option (Config.t schema))
  : result (Handler.t schema) :=
  let p := match p with None => NewConfig | Some p => p end in
  match Config.Schema p with
  | None => Panics "undefined GraphQL schema"
  | Some _ =>
      Ok {| Handler.Schema := Config.Schema p;
            Handler.Pretty := Config.Pretty p;
            Handler.LogSlowResponses := Config.LogSlowResponses p;
            Handler.ShowFullStackTrace := false |}
  end.

End Part000.

(** Sample configurations, with [nat] for the schema type. *)
Module ConfigSamples.

Definition withSchema : Config.t nat :=
  {| Config.Schema := Some 7%nat;
     Config.Pretty := false;
     Config.BeforeRequest := λ elapsed url query token id, tt;
     Config.AfterRequest := λ elapsed url query token id, tt |}.

Definition fullStackTrace : Part000.Config.t nat :=
  {| Part000.Config.Schema := Some 7%nat;
     Part000.Config.Pretty := true;
     Part000.Config.LogSlowResponses := true;
     Part000.Config.ShowFullStackTrace := true |}.

End ConfigSamples.

(** ** What a run does to the request *)

(** How many times the body stream has been read; a request without body
    counts as never read. *)
Definition bodyReads (r : Request) : nat :=
  match Body r with
  | Some b => reads b
  | None => 0
  end.

(** [touched r r']: [r'] is [r] after handler code has run on it.  Method,
    query string and headers are the same, and the body stream is as it
    was or has been read once more. *)
Definition touched (r r' : Request) : Prop :=
  Method r' = Method r ∧ RawQuery r' = RawQuery r ∧ Headers r' = Headers r ∧
  (Body r' = Body r ∨
   ∃ b b', Body r = Some b ∧ Body r' = Some b' ∧
           reads b' = S (reads b) ∧ fault b' = fault b).

(** The options a form with these values gives: those of [getFromForm],
    or all-empty ones when it returns nil. *)
Definition formOptions (values : url.Values) : RequestOptions :=
  if String.eqb (url.Get values "query") "" then zeroRequestOptions
  else {| Query := url.Get values "query";
          Variables := None;
          OperationName := url.Get values "operationName" |}.

Definition isString (v : JSON.json) : bool :=
  match v with JString _ => true | _ => false end.

Definition isObject (v : JSON.json) : bool :=
  match v with JObject _ => true | _ => false end.

(** ** The second package text of [handler.go]: slow-response logging *)

Module Variant2.

Module Handler.
Record t (schema : Type) := {
  Schema : option schema;
  pretty : bool;
  logSlowResponses : bool
}.
Arguments Schema {schema} _.
Arguments pretty {schema} _.
Arguments logSlowResponses {schema} _.
End Handler.

Module Config.
Record t (schema : Type) := {
  Schema : option schema;
  Pretty : bool;
  LogSlowResponses : bool
}.
Arguments Schema {schema} _.
Arguments Pretty {schema} _.
Arguments LogSlowResponses {schema} _.
End Config.

Definition NewConfig {schema : Type} : Config.t schema :=
  {| Config.Schema := None;
     Config.Pretty := true;
     Config.LogSlowResponses := false |}.

Definition New {schema : Type} (p : option (Config.t schema))
  : result (Handler.t schema) :=
  let p := match p with None => NewConfig | Some p => p end in
  match Config.Schema p with
  | None => Panics "undefined GraphQL schema"
  | Some _ =>
      Ok {| Handler.Schema := Config.Schema p;
            Handler.pretty := Config.Pretty p;
            Handler.logSlowResponses := Config.LogSlowResponses p |}
  end.

End Variant2.

(** ** Serving a request *)

Module graphql.

(** [graphql.Params], the argument of [graphql.Do]. *)
Record Params (schema context : Type) := {
  Schema : schema;
  RequestString : string;
  VariableValues : VarMap;
  OperationName : string;
  Context : context;
  RootObject : gmap string iface
}.
Arguments Schema {schema context} _.
Arguments RequestString {schema context} _.
Arguments VariableValues {schema context} _.
Arguments OperationName {schema context} _.
Arguments Context {schema context} _.
Arguments RootObject {schema context} _.

End graphql.

(** [http.ResponseWriter]: the status sent, if any, and the bytes
    written. *)
Record ResponseWriter := {
  status : option Z;
  written : string
}.

(** [w.WriteHeader(code)]: the first status is the one sent. *)
Definition WriteHeader (code : Z) (w : ResponseWriter) : ResponseWriter :=
  match status w with
  | Some _ => w
  | None => {| status := Some code; written := written w |}
  end.

(** [w.Write(data)]: sends status 200 first when none was sent. *)
Definition Write (data : string) (w : ResponseWriter) : ResponseWriter :=
  let w := WriteHeader 200 w in
  {| status := status w; written := written w +:+ data |}.

Definition StatusOK : Z := 200.

(** An operand of [log.Println]. *)
Inductive logArg :=
| LString (s : string)
| LDuration (d : Z).

(** What a handler does to the world besides answering: the calls of the
    two callbacks, the call of the engine, the lines logged.  [P] is the
    type of the engine's argument. *)
Inductive event (P : Type) :=
| BeforeRequestCall (elapsed : Z) (appLocation query token : string) (id : Z)
| EngineCall (params : P)
| Log (args : list logArg)
| AfterRequestCall (elapsed : Z) (appLocation query token : string) (id : Z).
Arguments BeforeRequestCall {P} elapsed appLocation query token id.
Arguments EngineCall {P} params.
Arguments Log {P} args.
Arguments AfterRequestCall {P} elapsed appLocation query token id.

(** The world a handler runs in.  [clock n] is what the [n]-th reading of
    the clock gives, in nanoseconds, and [ticks] counts the readings made;
    [events] is in order of occurrence. *)
Record World (P : Type) := {
  clock : nat → Z;
  ticks : nat;
  events : list (event P);
  response : ResponseWriter;
  request : Request
}.
Arguments clock {P} _.
Arguments ticks {P} _.
Arguments events {P} _.
Arguments response {P} _.
Arguments request {P} _.

(** [time.Now()]. *)
Definition Now {P} (w : World P) : Z * World P :=
  (clock w (ticks w),
   {| clock := clock w; ticks := S (ticks w); events := events w;
      response := response w; request := request w |}).

Definition emit {P} (e : event P) (w : World P) : World P :=
  {| clock := clock w; ticks := ticks w; events := (events w ++ [e])%list;
     response := response w; request := request w |}.

Definition respond {P} (f : ResponseWriter → ResponseWriter) (w : World P)
  : World P :=
  {| clock := clock w; ticks := ticks w; events := events w;
     response := f (response w); request := request w |}.

Definition setRequest {P} (r : Request) (w : World P) : World P :=
  {| clock := clock w; ticks := ticks w; events := events w;
     response := response w; request := r |}.

(** [time.Millisecond], in nanoseconds. *)
Definition Millisecond : Z := 1000000.

Section Serving.

Variables schema context Result : Type.

Variable ParseMediaType : string → string * option error.

(** [graphql.Do], the execution engine. *)
Variable Do : graphql.Params schema context → Result.

(** The [LocalizedStackTrace] of each of [result.Errors], in order. *)
Variable stackTraces : Result → list string.

(** [json.Marshal(result)] and [json.MarshalIndent(result, "", "\t")]:
    the bytes they give. *)
Variable Marshal : Result → string.
Variable MarshalIndent : Result → string.

(** [context.Background()]. *)
Variable Background : context.

Local Abbreviation params := (graphql.Params schema context).

(** The root object: the [Authorization] header under a fixed key. *)
Definition rootObject (r : Request) : gmap string iface :=
  <["Authorization" := IString (Header_Get (Headers r) "Authorization")]> ∅.

(** ContextHandler provides an entrypoint into executing graphQL queries
    with a user-provided context. *)
Definition ContextHandler (h : Handler.t schema) (ctx : context)
    (w : World params) : result (World params) :=
  let '(start, w) := Now w in
  (* get query and app location *)
  match NewRequestOptions ParseMediaType (request w) with
  | Panic msg => Panics msg
  | Return opts r =>
      let w := setRequest r w in
      let appLocation := Header_Get (Headers r) "X-App-Location" in
      (* send the authorization header with the root object *)
      let root := rootObject r in
      let authToken := Header_Get (Headers r) "Authorization" in
      let '(requestID, w) := Now w in
      match opts with
      | None => Panics "nil pointer dereference"
      | Some opts =>
          let w := emit (BeforeRequestCall 0 appLocation (Query opts)
                           authToken requestID) w in
          (* execute graphql query *)
          match Handler.Schema h with
          | None => Panics "nil pointer dereference"
          | Some hSchema =>
              let params :=
                {| graphql.Schema := hSchema;
                   graphql.RequestString := Query opts;
                   graphql.VariableValues := Variables opts;
                   graphql.OperationName := OperationName opts;
                   graphql.Context := ctx;
                   graphql.RootObject := root |} in
              let w := emit (EngineCall params) w in
              let result := Do params in
              let w := fold_left (λ w trace, emit (Log [LString trace]) w)
                                 (stackTraces result) w in
              let w :=
                if Handler.Pretty h
                then respond (λ rw, Write (MarshalIndent result)
                                          (WriteHeader StatusOK rw)) w
                else respond (λ rw, Write (Marshal result)
                                          (WriteHeader StatusOK rw)) w in
              let '(now, w) := Now w in
              let elapsed := (now - start)%Z in
              Ok (emit (AfterRequestCall elapsed appLocation (Query opts)
                          authToken requestID) w)
          end
      end
  end.


(** [ContextHandler] of the second package text: no callbacks, and a log
    of slow responses. *)
Definition slowResponseBanner : string :=
  "------------------ slow response -------------------".

Definition ContextHandler2 (h : Variant2.Handler.t schema) (ctx : context)
    (w : World params) : result (World params) :=
  let '(start, w) := Now w in
  (* get query *)
  match NewRequestOptions ParseMediaType (request w) with
  | Panic msg => Panics msg
  | Return opts r =>
      let w := setRequest r w in
      (* send the authorization header with the root object *)
      let root := rootObject r in
      (* execute graphql query *)
      match Variant2.Handler.Schema h, opts with
      | None, _ | _, None => Panics "nil pointer dereference"
      | Some hSchema, Some opts =>
          let params :=
            {| graphql.Schema := hSchema;
               graphql.RequestString := Query opts;
               graphql.VariableValues := Variables opts;
               graphql.OperationName := OperationName opts;
               graphql.Context := ctx;
               graphql.RootObject := root |} in
          let w := emit (EngineCall params) w in
          let result := Do params in
          let w :=
            if Variant2.Handler.pretty h
            then respond (λ rw, Write (MarshalIndent result)
                                      (WriteHeader StatusOK rw)) w
            else respond (λ rw, Write (Marshal result)
                                      (WriteHeader StatusOK rw)) w in
          let '(now, w) := Now w in
          let elapsed := (now - start)%Z in
          if Variant2.Handler.logSlowResponses h
             && (200 <? Z.quot elapsed Millisecond)%Z
          then
            let lines := Split (graphql.RequestString params) "010"%char in
            let w := emit (Log [LString slowResponseBanner]) w in
            let w := emit (Log [LString "response time: "; LDuration elapsed]) w in
            Ok (fold_left (λ w line, emit (Log [LString line]) w) lines w)
          else Ok w
      end
  end.

End Serving.

(** The argument the handlers make for the engine out of the decoded
    options and the request. *)
Definition paramsOf {schema context : Type} (s : schema) (ctx : context)
    (opts : RequestOptions) (r : Request) : graphql.Params schema context :=
  {| graphql.Schema := s;
     graphql.RequestString := Query opts;
     graphql.VariableValues := Variables opts;
     graphql.OperationName := OperationName opts;
     graphql.Context := ctx;
     graphql.RootObject := rootObject r |}.

(** The log entry of one line. *)
Definition logLine {P} (line : string) : event P := Log [LString line].

(** A fresh world around a request, with a clock that advances by
    [step] nanoseconds at each reading. *)
Definition newWorld {P} (step : Z) (r : Request) : World P :=
  {| clock := λ n, (step * Z.of_nat n)%Z; ticks := 0; events := [];
     response := {| status := None; written := "" |}; request := r |}.


(** The lines a run has logged, one operand each. *)
Definition loggedStrings {P} (es : list (event P)) : list string :=
  omap (λ e, match e with Log [LString s] => Some s | _ => None end) es.

(** A sample engine: the result is the list of error traces, one trace
    when the request string is empty. *)
Module EngineSamples.

Definition Do (p : graphql.Params nat unit) : list string :=
  if String.eqb (graphql.RequestString p) "" then ["no query"] else [].

Definition Marshal (r : list string) : string :=
  match r with [] => dquote "{'data':1}" | _ => dquote "{'errors':1}" end.

Definition MarshalIndent (r : list string) : string :=
  match r with [] => dquote "{ 'data': 1 }" | _ => dquote "{ 'errors': 1 }" end.


Definition slowHandler : Variant2.Handler.t nat :=
  {| Variant2.Handler.Schema := Some 7%nat; Variant2.Handler.pretty := true;
     Variant2.Handler.logSlowResponses := true |}.

End EngineSamples.

(** ** Serving in the variant with stack traces ([part_000]) *)

(** [strings.HasPrefix(s, prefix)]. *)
Fixpoint HasPrefix (s prefix : string) : bool :=
  match prefix, s with
  | EmptyString, _ => true
  | String p prefix', String c s' => Ascii.eqb c p && HasPrefix s' prefix'
  | String _ _, EmptyString => false
  end.

(** [strings.Contains(s, substr)]. *)
Fixpoint ContainsString (s substr : string) : bool :=
  HasPrefix s substr ||
  match s with
  | EmptyString => false
  | String _ s' => ContainsString s' substr
  end.

(** [strings.Replace(s, old, "", -1)]: every occurrence of [old] is taken
    out, from left to right, the occurrences not overlapping; an empty
    [old] takes nothing out.  [skip] counts the bytes of an occurrence
    still to be dropped. *)
Fixpoint removeFrom (skip : nat) (s old : string) : string :=
  match s with
  | EmptyString => EmptyString
  | String c s' =>
      match skip with
      | S k => removeFrom k s' old
      | O =>
          match old with
          | EmptyString => String c (removeFrom O s' old)
          | String _ old' =>
              if HasPrefix s old then removeFrom (String.length old') s' old
              else String c (removeFrom O s' old)
          end
      end
  end.

Definition RemoveAll (s old : string) : string := removeFrom O s old.

Definition traceRule : string :=
  "|---------------------------------------------------------------------------".

Definition newline : string := String "010"%char EmptyString.

(** What the loop over the lines of a stack does with one line: a line
    that mentions [graphql-go] or [runtime] is skipped, any other is
    written with the working directory taken out. *)
Definition writeStackLine (dir : string) (stack : string) (line : string)
  : string :=
  if ContainsString line "graphql-go" then stack
  else if ContainsString line "runtime" then stack
  else stack +:+ "|  " +:+ RemoveAll line dir +:+ newline.

(** The lines an error's stack is shown by, as a map and a filter. *)
Definition keptLine (line : string) : bool :=
  negb (ContainsString line "graphql-go") && negb (ContainsString line "runtime").

Definition shownLine (dir line : string) : string :=
  "|  " +:+ RemoveAll line dir +:+ newline.

Fixpoint concatStrings (l : list string) : string :=
  match l with
  | [] => EmptyString
  | s :: l' => s +:+ concatStrings l'
  end.

(** The entries of the slow-response log: none unless logging is on and
    the response took more than 200 whole milliseconds. *)
Definition slowLog {P} (on : bool) (elapsed : Z) (query : string)
  : list (event P) :=
  if on && (200 <? Z.quot elapsed Millisecond)%Z
  then [logLine slowResponseBanner;
        Log [LString "response time: "; LDuration elapsed]] ++
       map logLine (Split query "010"%char)
  else [].

Section Serving000.

Variables schema context Result : Type.

Variable ParseMediaType : string → string * option error.
Variable Do : graphql.Params schema context → Result.
Variable Marshal : Result → string.
Variable MarshalIndent : Result → string.

(** For each of [result.Errors], in order, what [err.Error()] gives and
    [err.Stack]. *)
Variable errorsOf : Result → list (string * string).

(** The tokens a [bufio.Scanner] gives for a stack: its lines. *)
Variable scanLines : string → list string.

(** What [os.Getwd()] gives; the empty string when it fails. *)
Variable Getwd : string.

Local Abbreviation params := (graphql.Params schema context).

(** The text logged for an error when the full stack is not asked for. *)
Definition filteredTrace (message stack : string) : string :=
  let buf := newline +:+ newline +:+ traceRule +:+ newline in
  let buf := buf +:+ "|  graphql error" +:+ newline in
  let buf := buf +:+ traceRule +:+ newline in
  let buf := buf +:+ "|" +:+ newline +:+ "|  " in
  let buf := buf +:+ message in
  let buf := buf +:+ newline +:+ "|  ..." +:+ newline in
  let dir := Getwd in
  let buf := fold_left (writeStackLine dir) (scanLines stack) buf in
  let buf := buf +:+ "|  ..." +:+ newline in
  let buf := buf +:+ traceRule +:+ newline in
  buf.

(** The logging of one error. *)
Definition logError (showFullStackTrace : bool) (w : World params)
    (err : string * string) : World params :=
  let '(message, stack) := err in
  if showFullStackTrace
  then emit (Log [LString stack]) (emit (Log [LString message]) w)
  else emit (Log [LString (filteredTrace message stack)]) w.

Definition ContextHandler000 (h : Part000.Handler.t schema) (ctx : context)
    (w : World params) : result (World params) :=
  let '(start, w) := Now w in
  (* get query *)
  match NewRequestOptions ParseMediaType (request w) with
  | Panic msg => Panics msg
  | Return opts r =>
      let w := setRequest r w in
      (* send the authorization header with the root object *)
      let root := rootObject r in
      (* execute graphql query *)
      match Part000.Handler.Schema h, opts with
      | None, _ | _, None => Panics "nil pointer dereference"
      | Some hSchema, Some opts =>
          let params :=
            {| graphql.Schema := hSchema;
               graphql.RequestString := Query opts;
               graphql.VariableValues := Variables opts;
               graphql.OperationName := OperationName opts;
               graphql.Context := ctx;
               graphql.RootObject := root |} in
          let w := emit (EngineCall params) w in
          let result := Do params in
          let w :=
            fold_left (logError (Part000.Handler.ShowFullStackTrace h))
                      (errorsOf result) w in
          let w :=
            if Part000.Handler.Pretty h
            then respond (λ rw, Write (MarshalIndent result)
                                      (WriteHeader StatusOK rw)) w
            else respond (λ rw, Write (Marshal result)
                                      (WriteHeader StatusOK rw)) w in
          let '(now, w) := Now w in
          let elapsed := (now - start)%Z in
          if Part000.Handler.LogSlowResponses h
             && (200 <? Z.quot elapsed Millisecond)%Z
          then
            let lines := Split (graphql.RequestString params) "010"%char in
            let w := emit (Log [LString slowResponseBanner]) w in
            let w := emit (Log [LString "response time: "; LDuration elapsed]) w in
            Ok (fold_left (λ w line, emit (Log [LString line]) w) lines w)
          else Ok w
      end
  end.

End Serving000.

(** More sample requests and worlds. *)
Module MoreSamples.

(** A form body under a URL query that does not parse. *)
Definition formBadUrl : Request :=
  newRequest "POST" "x=%zz" "application/x-www-form-urlencoded"
    (Some "query=foo").

Definition jsonNull : Request :=
  newRequest "POST" "" "application/json" (Some "null").

(** A number where the query should be, next to object variables. *)
Definition numberQueryText : string :=
  dquote "{'query':5,'variables':{'x':1},'operationName':'Op'}".

Definition numberQuery : Request :=
  newRequest "POST" "" "application/json" (Some numberQueryText).


(** Worlds whose clock advances by one nanosecond, and by 300
    milliseconds, at each reading. *)
Definition fast (r : Request) : World (graphql.Params nat unit) :=
  newWorld 1 r.


Definition noSchema : Handler.t nat :=
  {| Handler.Schema := None; Handler.Pretty := true;
     Handler.BeforeRequest := λ elapsed url query token id, tt;
     Handler.AfterRequest := λ elapsed url query token id, tt |}.

End MoreSamples.

(** * Properties *)

(** ** The library models on small inputs *)

Example Split_content_type :
  Split "application/json; charset=utf-8" ";"%char
  = ["application/json"; " charset=utf-8"].
Proof. reflexivity. Qed.

Example Split_empty : Split "" ";"%char = [""].
Proof. reflexivity. Qed.

Example scan_object :
  scan (dquote "{'a': [1, -2.5e3, true, null], 'b': {}}")
  = Some (JObject [("a", JArray [JNumber "1"; JNumber "-2.5e3"; JBool true; JNull]);
                   ("b", JObject [])]).
Proof. vm_compute. reflexivity. Qed.

Example scan_escapes :
  scan (dquote "'A\n😀\ud83d'")
  = Some (JString
            (string_of_list
               ([byte 65; byte 10] ++ encode_rune 128512 ++ replacement))).
Proof. vm_compute. reflexivity. Qed.

Example scan_rejects :
  map scan [""; "01"; "[1,]"; "-"; "1."; "tru"; dquote "{'a' 1}"; dquote "{'a':1,}";
            dquote "'a"; "[1] x"]
  = [None; None; None; None; None; None; None; None; None; None].
Proof. vm_compute. reflexivity. Qed.

Example scan_top_level_values :
  map scan ["  null "; "1e5"; "[[],[[]]]"; "{}"]
  = [Some JNull; Some (JNumber "1e5");
     Some (JArray [JArray []; JArray [JArray []]]); Some (JObject [])].
Proof. vm_compute. reflexivity. Qed.

Example ParseQuery_pairs :
  url.ParseQuery "query=%7Bfield%7D&a=1&a=2&b&+c=+"
  = (<["query" := ["{field}"]]> (<["a" := ["1"; "2"]]> (<["b" := [""]]>
       {[ " c" := [" "] ]})), None).
Proof. vm_compute. reflexivity. Qed.

Example ParseQuery_keeps_what_it_can :
  url.ParseQuery "x=%zz&z=3" = ({[ "z" := ["3"] ]}, Some EscapeError).
Proof. vm_compute. reflexivity. Qed.

Example findField_folds_case :
  map json.findField ["query"; "QUERY"; "Variables"; "operationname"; "q"]
  = [Some json.FQuery; Some json.FQuery; Some json.FVariables;
     Some json.FOperationName; None].
Proof. vm_compute. reflexivity. Qed.

(** The form example of the specification. *)
Example form_body_decodes :
  answer (NewRequestOptions plainMediaType
            (newRequest "POST" "" "application/x-www-form-urlencoded; charset=utf-8"
               (Some "query=%7Bfield%7D&operationName=Op")))
  = Some (Some {| Query := "{field}"; Variables := None; OperationName := "Op" |},
          Some (drained (newBody "query=%7Bfield%7D&operationName=Op"))).
Proof. vm_compute. reflexivity. Qed.

(** ** Library facts *)

Lemma Split_head (s : string) (sep : ascii) :
  Split s sep !! 0%nat = Some (Cut s sep).1.
Proof.
  induction s as [|c s IH]; simpl; [reflexivity|].
  destruct (Ascii.eqb c sep); [reflexivity|].
  destruct (Split s sep) as [|tok toks]; [discriminate IH|].
  destruct (Cut s sep) as [before after].
  simpl in *. congruence.
Qed.

Lemma Cut_no_sep (s : string) (sep : ascii) :
  Contains s sep = false → (Cut s sep).1 = s.
Proof.
  induction s as [|c s IH]; simpl; [reflexivity|].
  destruct (Ascii.eqb c sep); simpl; [discriminate|].
  intros H. destruct (Cut s sep) as [before after].
  simpl in *. rewrite (IH H). reflexivity.
Qed.

Lemma Cut_append (s t : string) (sep : ascii) :
  Contains s sep = false →
  (Cut (s +:+ String sep t) sep).1 = s.
Proof.
  induction s as [|c s IH]; simpl.
  - rewrite Ascii.eqb_refl. reflexivity.
  - destruct (Ascii.eqb c sep); simpl; [discriminate|].
    intros H. specialize (IH H).
    destruct (Cut (s +:+ String sep t) sep) as [before after].
    simpl in *. rewrite IH. reflexivity.
Qed.

Lemma eqb_string_false (a b : string) : a ≠ b → String.eqb a b = false.
Proof. intros H. apply String.eqb_neq. exact H. Qed.

Lemma switchContentType_default (contentType : string) :
  contentType ≠ ContentTypeGraphQL →
  contentType ≠ ContentTypeFormURLEncoded →
  switchContentType contentType = CaseDefault.
Proof.
  intros Hg Hf. unfold switchContentType.
  rewrite (eqb_string_false _ _ Hg), (eqb_string_false _ _ Hf).
  destruct (String.eqb contentType ContentTypeJSON); reflexivity.
Qed.

Lemma switchContentType_not_form (contentType : string) :
  contentType ≠ ContentTypeFormURLEncoded →
  switchContentType contentType ≠ CaseFormURLEncoded.
Proof.
  intros Hf. unfold switchContentType.
  rewrite (eqb_string_false _ _ Hf).
  destruct (String.eqb contentType ContentTypeGraphQL); [discriminate|].
  destruct (String.eqb contentType ContentTypeJSON); discriminate.
Qed.

(** ** [getFromForm] *)

Lemma UnmarshalMapValue_keeps (data : string) (m : VarMap) :
  (json.UnmarshalMapValue data m).1 = m.
Proof. unfold json.UnmarshalMapValue. destruct (scan data); reflexivity. Qed.

Lemma UnmarshalMapValue_fails (data : string) (m : VarMap) :
  (json.UnmarshalMapValue data m).2 ≠ None.
Proof. unfold json.UnmarshalMapValue. destruct (scan data); discriminate. Qed.

Lemma getFromForm_query (values : url.Values) :
  url.Get values "query" ≠ "" →
  getFromForm values =
    Some {| Query := url.Get values "query";
            Variables := (json.UnmarshalMapValue (url.Get values "variables") None).1;
            OperationName := url.Get values "operationName" |}.
Proof.
  intros H. unfold getFromForm.
  rewrite (eqb_string_false _ _ H). simpl.
  destruct (json.UnmarshalMapValue _ _); reflexivity.
Qed.

Lemma getFromForm_no_query (values : url.Values) :
  url.Get values "query" = "" → getFromForm values = None.
Proof. intros H. unfold getFromForm. rewrite H. reflexivity. Qed.

Lemma getFromForm_Variables (values : url.Values) (o : RequestOptions) :
  getFromForm values = Some o → Variables o = None.
Proof.
  unfold getFromForm. destruct (negb _); [|discriminate].
  pose proof (UnmarshalMapValue_keeps (url.Get values "variables") None) as K.
  destruct (json.UnmarshalMapValue _ _) as [m e].
  simpl in K. intros [= <-]. exact K.
Qed.

(** ** [NewRequestOptions] *)

Create HintDb handler_m.
#[local] Hint Unfold mbind M_bind mret M_ret gets panic index ReadAll setBody
  setForm setPostForm : handler_m.

Ltac run_m := autounfold with handler_m; simpl.

Section DecoderProperties.

Variable ParseMediaType : string → string * option error.

Local Abbreviation decode := (NewRequestOptions ParseMediaType).

(** Past the two gates the decoder runs the body of the case that the
    first token of [Content-Type] selects. *)
Lemma decode_dispatch (r : Request) (b : Reader) :
  url.Get (URL_Query r) "query" = "" →
  Method r = "POST" →
  Body r = Some b →
  decode r =
    caseBody ParseMediaType
      (switchContentType (firstToken (contentTypeOf r))) b r.
Proof.
  intros Hq Hm Hb. unfold NewRequestOptions. run_m.
  rewrite (getFromForm_no_query _ Hq), Hm. simpl.
  rewrite Hb, Split_head. reflexivity.
Qed.

(** With a non-empty [query] in the query string nothing but the query
    string is looked at. *)
Lemma decode_query (r r' : Request) :
  RawQuery r' = RawQuery r →
  url.Get (URL_Query r) "query" ≠ "" →
  decode r' =
    Return (Some {| Query := url.Get (URL_Query r) "query";
                    Variables :=
                      (json.UnmarshalMapValue
                         (url.Get (URL_Query r) "variables") None).1;
                    OperationName := url.Get (URL_Query r) "operationName" |})
           r'.
Proof.
  intros Hraw Hq. unfold NewRequestOptions. run_m.
  unfold URL_Query in *. rewrite Hraw.
  rewrite (getFromForm_query _ Hq). reflexivity.
Qed.

(** The method gate and the body gate. *)
Lemma decode_gate (r : Request) :
  url.Get (URL_Query r) "query" = "" →
  Method r ≠ "POST" ∨ Body r = None →
  decode r = Return (Some zeroRequestOptions) r.
Proof.
  intros Hq Hgate. unfold NewRequestOptions. run_m.
  rewrite (getFromForm_no_query _ Hq).
  destruct (String.eqb (Method r) "POST") eqn:Hm; simpl; [|reflexivity].
  destruct Hgate as [Hne | Hb].
  - apply String.eqb_eq in Hm. contradiction.
  - rewrite Hb. reflexivity.
Qed.

(** C1. When the [query] parameter of the URL query string (its first
    value, as [Values.Get] reads it) is not empty, the options returned are
    made of the URL query string alone: [Query] is the [query] parameter,
    [OperationName] the [operationName] parameter, and [Variables] what the
    decoding attempt on the [variables] parameter leaves.  Method, headers
    and body play no part: every request with the same query string gets
    the same options, and the request, its body stream included, is left
    as it was, so the body is not read. *)
Theorem query_string_wins (r : Request) :
  url.Get (URL_Query r) "query" ≠ "" →
  let o := {| Query := url.Get (URL_Query r) "query";
              Variables :=
                (json.UnmarshalMapValue
                   (url.Get (URL_Query r) "variables") None).1;
              OperationName := url.Get (URL_Query r) "operationName" |} in
  decode r = Return (Some o) r ∧
  ∀ r' : Request, RawQuery r' = RawQuery r → decode r' = Return (Some o) r'.
Proof.
  intros Hq o. split.
  - apply decode_query; [reflexivity | exact Hq].
  - intros r' Hraw. apply decode_query; [exact Hraw | exact Hq].
Qed.

(** C3. Without a non-empty [query] parameter in the URL query string, a
    request whose method is not POST, and a POST request without a body,
    both get all-empty options, and the request is left as it was: no body
    is read. *)
Theorem gates_return_empty (r : Request) :
  url.Get (URL_Query r) "query" = "" →
  (Method r ≠ "POST" → decode r = Return (Some zeroRequestOptions) r) ∧
  (Method r = "POST" → Body r = None →
   decode r = Return (Some zeroRequestOptions) r).
Proof.
  intros Hq. split.
  - intros Hm. apply decode_gate; [exact Hq | left; exact Hm].
  - intros _ Hb. apply decode_gate; [exact Hq | right; exact Hb].
Qed.

(** C4. A POST request without a query-string [query], with a body, and
    with [application/graphql] as the first [;]-delimited token of its
    [Content-Type]: the options returned have the whole body, byte for
    byte, as [Query], and [Variables] and [OperationName] empty; when
    reading the body fails the options are all-empty.  The body has been
    read once. *)
Theorem graphql_body_is_query (r : Request) (b : Reader) :
  url.Get (URL_Query r) "query" = "" →
  Method r = "POST" →
  Body r = Some b →
  firstToken (contentTypeOf r) = ContentTypeGraphQL →
  decode r =
    Return (Some (match fault b with
                  | None => {| Query := pending b; Variables := None;
                               OperationName := "" |}
                  | Some _ => zeroRequestOptions
                  end))
           (withBody r (drained b)).
Proof.
  intros Hq Hm Hb Hct.
  rewrite (decode_dispatch r b Hq Hm Hb), Hct. simpl. run_m.
  destruct (fault b); reflexivity.
Qed.

(** ** The default case: a JSON body *)

Lemma routed_cons (f : json.field) (kv : string * JSON.json)
    (members : list (string * JSON.json)) :
  routed f (kv :: members) = (routed f [kv] ++ routed f members)%list.
Proof.
  unfold routed. simpl.
  destruct (json.findField kv.1) as [g|]; [|reflexivity].
  destruct (sameField f g); reflexivity.
Qed.

Lemma stringAfter_app (vs ws : list JSON.json) (cur : string) :
  stringAfter (vs ++ ws) cur = stringAfter ws (stringAfter vs cur).
Proof. apply fold_left_app. Qed.

Lemma mapAfter_app (vs ws : list JSON.json) (cur : VarMap) :
  mapAfter (vs ++ ws) cur = mapAfter ws (mapAfter vs cur).
Proof. apply fold_left_app. Qed.

Lemma misfit_cons (kv : string * JSON.json)
    (members : list (string * JSON.json)) (err : option error) :
  saveError (saveError err (misfit [kv])) (misfit members) =
  saveError err (misfit (kv :: members)).
Proof.
  unfold misfit.
  rewrite (routed_cons json.FQuery kv members),
    (routed_cons json.FVariables kv members),
    (routed_cons json.FOperationName kv members).
  rewrite !forallb_app.
  destruct err; [reflexivity|]. cbn [saveError].
  destruct (forallb fitsString (routed json.FQuery [kv]));
    destruct (forallb fitsMap (routed json.FVariables [kv]));
    destruct (forallb fitsString (routed json.FOperationName [kv]));
    cbn; try reflexivity;
    destruct (forallb fitsString (routed json.FQuery members));
    destruct (forallb fitsMap (routed json.FVariables members));
    destruct (forallb fitsString (routed json.FOperationName members));
    reflexivity.
Qed.

Lemma memberInto_one (kv : string * JSON.json) (o : RequestOptions)
    (err : option error) :
  json.memberInto (o, err) kv =
    ({| Query := stringAfter (routed json.FQuery [kv]) (Query o);
        Variables := mapAfter (routed json.FVariables [kv]) (Variables o);
        OperationName :=
          stringAfter (routed json.FOperationName [kv]) (OperationName o) |},
     saveError err (misfit [kv])).
Proof.
  destruct kv as [k v], o as [q m n].
  unfold json.memberInto, misfit, routed. simpl.
  destruct (json.findField k) as [[ | | ]|]; simpl;
    destruct v, err; reflexivity.
Qed.

Lemma memberInto_fold (members : list (string * JSON.json))
    (o : RequestOptions) (err : option error) :
  fold_left json.memberInto members (o, err) =
    ({| Query := stringAfter (routed json.FQuery members) (Query o);
        Variables := mapAfter (routed json.FVariables members) (Variables o);
        OperationName :=
          stringAfter (routed json.FOperationName members) (OperationName o) |},
     saveError err (misfit members)).
Proof.
  revert o err.
  induction members as [|kv members IH]; intros o err.
  - destruct o, err; reflexivity.
  - cbn [fold_left]. rewrite memberInto_one, IH.
    cbn [Query Variables OperationName].
    rewrite (routed_cons json.FQuery kv members),
      (routed_cons json.FVariables kv members),
      (routed_cons json.FOperationName kv members).
    rewrite !stringAfter_app, mapAfter_app, misfit_cons.
    reflexivity.
Qed.

Lemma memberIntoCompat_one (kv : string * JSON.json)
    (c : requestOptionsCompatibility) (err : option error) :
  cVariables (json.memberIntoCompat (c, err) kv).1 =
    stringAfter (routed json.FVariables [kv]) (cVariables c).
Proof.
  destruct kv as [k v], c as [q m n].
  unfold json.memberIntoCompat, routed. simpl.
  destruct (json.findField k) as [[ | | ]|]; simpl; destruct v; reflexivity.
Qed.

Lemma memberIntoCompat_fold (members : list (string * JSON.json))
    (c : requestOptionsCompatibility) (err : option error) :
  cVariables (fold_left json.memberIntoCompat members (c, err)).1 =
    stringAfter (routed json.FVariables members) (cVariables c).
Proof.
  revert c err.
  induction members as [|kv members IH]; intros c err; [reflexivity|].
  cbn [fold_left].
  destruct (json.memberIntoCompat (c, err) kv) as [c' err'] eqn:E.
  rewrite IH, (routed_cons json.FVariables kv members), stringAfter_app.
  pose proof (memberIntoCompat_one kv c err) as H1.
  rewrite E in H1. cbn [fst] in H1. rewrite H1. reflexivity.
Qed.

(** What the default case returns for a body that is a JSON object. *)
Lemma caseDefault_object (r : Request) (b : Reader)
    (members : list (string * JSON.json)) :
  fault b = None →
  scan (pending b) = Some (JObject members) →
  caseBody ParseMediaType CaseDefault b r =
    Return
      (Some
         {| Query := stringAfter (routed json.FQuery members) "";
            Variables :=
              match misfit members with
              | None => mapAfter (routed json.FVariables members) None
              | Some _ =>
                  (json.UnmarshalMapPtr
                     (stringAfter (routed json.FVariables members) "")
                     (mapAfter (routed json.FVariables members) None)).1
              end;
            OperationName :=
              stringAfter (routed json.FOperationName members) "" |})
      (withBody r (drained b)).
Proof.
  intros Hf Hscan. unfold caseBody. run_m. rewrite Hf.
  unfold json.UnmarshalOptions, json.UnmarshalCompat. rewrite Hscan.
  rewrite memberInto_fold. cbn [saveError Query Variables OperationName
    zeroRequestOptions].
  destruct (misfit members) as [e|]; [|reflexivity].
  pose proof (memberIntoCompat_fold members zeroCompatibility None) as Hc.
  destruct (fold_left json.memberIntoCompat members (zeroCompatibility, None))
    as [c errc].
  cbn [fst cVariables zeroCompatibility] in Hc. rewrite Hc.
  destruct (json.UnmarshalMapPtr _ _) as [vars errv]. reflexivity.
Qed.

(** C5. A POST request without a query-string [query], whose
    [Content-Type] selects neither the GraphQL nor the form case (so
    [application/json], or anything else, or nothing), and whose body reads
    as a JSON object with a string [Q] for [query], an object [V] for
    [variables] and a string [O] for [operationName]: the options returned
    are exactly [Q], the mapping of [V], and [O]. *)
Theorem json_body_decodes (r : Request) (b : Reader)
    (members V : list (string * JSON.json)) (Q O : string) :
  url.Get (URL_Query r) "query" = "" →
  Method r = "POST" →
  Body r = Some b →
  fault b = None →
  firstToken (contentTypeOf r) ≠ ContentTypeGraphQL →
  firstToken (contentTypeOf r) ≠ ContentTypeFormURLEncoded →
  scan (pending b) = Some (JObject members) →
  routed json.FQuery members = [JString Q] →
  routed json.FVariables members = [JObject V] →
  routed json.FOperationName members = [JString O] →
  decode r =
    Return (Some {| Query := Q;
                    Variables := Some (json.objectInto V ∅);
                    OperationName := O |})
           (withBody r (drained b)).
Proof.
  intros Hq Hm Hb Hf Hg Hform Hscan HQ HV HO.
  rewrite (decode_dispatch r b Hq Hm Hb).
  rewrite (switchContentType_default _ Hg Hform).
  rewrite (caseDefault_object r b members Hf Hscan).
  unfold misfit. rewrite HQ, HV, HO. reflexivity.
Qed.

(** C6. On the same path, a body that reads as a JSON object whose
    [variables] member is a string, the string being itself the text of a
    JSON object: the options returned have the mapping of that inner
    object as [Variables], and [Query] and [OperationName] as the members
    of the body give them. *)
Theorem json_string_variables_recovered (r : Request) (b : Reader)
    (members inner : list (string * JSON.json)) (s : string) :
  url.Get (URL_Query r) "query" = "" →
  Method r = "POST" →
  Body r = Some b →
  fault b = None →
  firstToken (contentTypeOf r) ≠ ContentTypeGraphQL →
  firstToken (contentTypeOf r) ≠ ContentTypeFormURLEncoded →
  scan (pending b) = Some (JObject members) →
  routed json.FVariables members = [JString s] →
  scan s = Some (JObject inner) →
  decode r =
    Return (Some {| Query := stringAfter (routed json.FQuery members) "";
                    Variables := Some (json.objectInto inner ∅);
                    OperationName :=
                      stringAfter (routed json.FOperationName members) "" |})
           (withBody r (drained b)).
Proof.
  intros Hq Hm Hb Hf Hg Hform Hscan HV Hinner.
  rewrite (decode_dispatch r b Hq Hm Hb).
  rewrite (switchContentType_default _ Hg Hform).
  rewrite (caseDefault_object r b members Hf Hscan).
  unfold misfit. rewrite HV. cbn [forallb fitsMap andb].
  rewrite andb_false_r. cbn [andb stringAfter mapAfter fold_left
    json.storeString json.storeMap fst].
  unfold json.UnmarshalMapPtr. rewrite Hinner. reflexivity.
Qed.

(** ** Every run returns *)

Lemma ReadAllLimited_returns (n : N) (b : Reader) (r : Request) :
  ∃ x r', ReadAllLimited n b r = Return x r'.
Proof.
  unfold ReadAllLimited.
  destruct (N.of_nat (String.length (pending b)) <? n).
  - run_m. eauto.
  - destruct (splitAt n (pending b)). run_m. eauto.
Qed.

Lemma parsePostForm_returns (r : Request) :
  ∃ x r', parsePostForm ParseMediaType r = Return x r'.
Proof.
  unfold parsePostForm. run_m.
  destruct (Body r) as [b|]; [|eauto].
  destruct (ParseMediaType _) as [ct err].
  destruct (String.eqb ct _); [|eauto].
  destruct (ReadAllLimited_returns (maxFormSize + 1) b r) as ([data e] & r' & ->).
  destruct e; [eauto|].
  destruct (maxFormSize <? _); [eauto|].
  destruct (url.ParseQuery data). eauto.
Qed.

Lemma fillForm_returns (err : option error) (r : Request) :
  ∃ e r', fillForm err r = Return e r'.
Proof.
  unfold fillForm. run_m.
  destruct (Form r); [eauto|].
  destruct (url.ParseQuery (RawQuery r)). eauto.
Qed.

Lemma ParseForm_returns (r : Request) :
  ∃ e r', ParseForm ParseMediaType r = Return e r'.
Proof.
  unfold ParseForm. run_m.
  destruct (PostForm r) as [pf|]; [apply fillForm_returns|].
  destruct (String.eqb (Method r) "POST" || String.eqb (Method r) "PUT"
            || String.eqb (Method r) "PATCH").
  - destruct (parsePostForm_returns r) as ([vs err] & r1 & ->).
    apply fillForm_returns.
  - apply fillForm_returns.
Qed.

(** A case other than the form case reads the body and nothing else of
    the request: what it returns is fixed by the body stream. *)
Lemma caseBody_body_only (c : switchCase) (b : Reader) :
  c ≠ CaseFormURLEncoded →
  ∃ o, ∀ r, caseBody ParseMediaType c b r = Return (Some o) (withBody r (drained b)).
Proof.
  intros Hc. destruct c; [|contradiction|]; unfold caseBody; run_m.
  - destruct (fault b); eauto.
  - destruct (fault b); [eauto|].
    destruct (json.UnmarshalOptions _ _) as [opts [e|]]; [|eauto].
    destruct (json.UnmarshalCompat _ _) as [c _].
    destruct (json.UnmarshalMapPtr _ _) as [vars _]. eauto.
Qed.

Lemma caseBody_returns (c : switchCase) (b : Reader) (r : Request) :
  ∃ o r', caseBody ParseMediaType c b r = Return (Some o) r'.
Proof.
  destruct c.
  - destruct (caseBody_body_only CaseGraphQL b) as [o Ho]; [discriminate|].
    rewrite Ho. eauto.
  - unfold caseBody. run_m.
    destruct (ParseForm_returns r) as (e & r1 & ->).
    destruct e; [eauto|].
    destruct (getFromForm _); eauto.
  - destruct (caseBody_body_only CaseDefault b) as [o Ho]; [discriminate|].
    rewrite Ho. eauto.
Qed.

(** C7. [NewRequestOptions] returns for every request: it does not panic,
    and what it returns is a non-nil pointer to options.  Malformed input
    degrades to empty values: a body that is not JSON, or a form that
    cannot be parsed, gives all-empty options, and a [variables] string
    that is not JSON gives empty [Variables] next to the other two
    fields. *)
Theorem decode_total (r : Request) :
  (∃ (o : RequestOptions) (r' : Request), decode r = Return (Some o) r') ∧
  (∀ b : Reader,
     url.Get (URL_Query r) "query" = "" → Method r = "POST" →
     Body r = Some b → fault b = None →
     switchContentType (firstToken (contentTypeOf r)) = CaseDefault →
     scan (pending b) = None →
     decode r = Return (Some zeroRequestOptions) (withBody r (drained b))) ∧
  (∀ (b : Reader) (e : error) (r' : Request),
     url.Get (URL_Query r) "query" = "" → Method r = "POST" →
     Body r = Some b →
     switchContentType (firstToken (contentTypeOf r)) = CaseFormURLEncoded →
     ParseForm ParseMediaType r = Return (Some e) r' →
     decode r = Return (Some zeroRequestOptions) r') ∧
  (∀ (b : Reader) (members : list (string * JSON.json)) (s : string),
     url.Get (URL_Query r) "query" = "" → Method r = "POST" →
     Body r = Some b → fault b = None →
     switchContentType (firstToken (contentTypeOf r)) = CaseDefault →
     scan (pending b) = Some (JObject members) →
     routed json.FVariables members = [JString s] →
     scan s = None →
     decode r =
       Return (Some {| Query := stringAfter (routed json.FQuery members) "";
                       Variables := None;
                       OperationName :=
                         stringAfter (routed json.FOperationName members) "" |})
              (withBody r (drained b))).
Proof.
  split; [|split; [|split]].
  - unfold NewRequestOptions. run_m.
    destruct (getFromForm (URL_Query r)); [eauto|].
    destruct (negb (String.eqb (Method r) "POST")); [eauto|].
    destruct (Body r) as [b|]; [|eauto].
    rewrite Split_head. apply caseBody_returns.
  - intros b Hq Hm Hb Hf Hc Hscan.
    rewrite (decode_dispatch r b Hq Hm Hb), Hc.
    unfold caseBody. run_m. rewrite Hf.
    unfold json.UnmarshalOptions, json.UnmarshalCompat, json.UnmarshalMapPtr.
    rewrite Hscan. reflexivity.
  - intros b e r' Hq Hm Hb Hc Hpf.
    rewrite (decode_dispatch r b Hq Hm Hb), Hc.
    unfold caseBody. run_m. rewrite Hpf. reflexivity.
  - intros b members s Hq Hm Hb Hf Hc Hscan HV Hs.
    rewrite (decode_dispatch r b Hq Hm Hb), Hc.
    rewrite (caseDefault_object r b members Hf Hscan).
    unfold misfit. rewrite HV. cbn [forallb fitsMap andb].
    rewrite andb_false_r. cbn [andb stringAfter mapAfter fold_left
      json.storeString json.storeMap fst].
    unfold json.UnmarshalMapPtr. rewrite Hs. reflexivity.
Qed.

(** ** Dispatch on the first token of [Content-Type] *)

Lemma contentTypeOf_with (r : Request) (v : string) :
  contentTypeOf (withContentType r v) = v.
Proof.
  unfold contentTypeOf, withContentType, Header_Get. simpl.
  rewrite lookup_insert_eq. reflexivity.
Qed.

Lemma answer_same_token (r : Request) (v1 v2 : string) :
  firstToken v1 = firstToken v2 →
  firstToken v1 ≠ ContentTypeFormURLEncoded →
  answer (decode (withContentType r v1)) = answer (decode (withContentType r v2)).
Proof.
  intros Htok Hnf.
  set (r1 := withContentType r v1). set (r2 := withContentType r v2).
  destruct (decide (url.Get (URL_Query r) "query" = "")) as [Hq|Hq].
  - destruct (decide (Method r = "POST")) as [Hm|Hm].
    + destruct (Body r) as [b|] eqn:Hb.
      * rewrite (decode_dispatch r1 b Hq Hm Hb), (decode_dispatch r2 b Hq Hm Hb).
        unfold r1, r2. rewrite !contentTypeOf_with, <- Htok.
        destruct (caseBody_body_only (switchContentType (firstToken v1)) b)
          as [o Ho].
        { apply switchContentType_not_form. exact Hnf. }
        rewrite !Ho. reflexivity.
      * rewrite (decode_gate r1 Hq (or_intror Hb)),
          (decode_gate r2 Hq (or_intror Hb)). reflexivity.
    + rewrite (decode_gate r1 Hq (or_introl Hm)),
        (decode_gate r2 Hq (or_introl Hm)). reflexivity.
  - rewrite (decode_query r r1 eq_refl Hq), (decode_query r r2 eq_refl Hq).
    reflexivity.
Qed.

(** C8. The dispatch looks at the first [;]-delimited token of
    [Content-Type] only.  For every request, the value
    [application/json; charset=utf-8] gives the same options, and the same
    use of the body, as [application/json].  The token of a value with
    parameters is the token of the value without them; two values with the
    same token run the same case of the switch; and, outside the form case
    (which hands the whole header to [ParseForm]), they give the same
    answer. *)
Theorem content_type_first_token (r : Request) :
  answer (decode (withContentType r "application/json; charset=utf-8")) =
    answer (decode (withContentType r "application/json")) ∧
  (∀ tok params : string,
     Contains tok ";"%char = false →
     firstToken (tok +:+ String ";"%char params) = firstToken tok) ∧
  (∀ (b : Reader) (v1 v2 : string),
     url.Get (URL_Query r) "query" = "" → Method r = "POST" →
     Body r = Some b →
     firstToken v1 = firstToken v2 →
     ∃ c : switchCase,
       decode (withContentType r v1) =
         caseBody ParseMediaType c b (withContentType r v1) ∧
       decode (withContentType r v2) =
         caseBody ParseMediaType c b (withContentType r v2)) ∧
  (∀ v1 v2 : string,
     firstToken v1 = firstToken v2 →
     firstToken v1 ≠ ContentTypeFormURLEncoded →
     answer (decode (withContentType r v1)) =
       answer (decode (withContentType r v2))).
Proof.
  split; [|split; [|split]].
  - apply answer_same_token; [reflexivity|discriminate].
  - intros tok params Htok. unfold firstToken.
    rewrite (Cut_append tok params _ Htok), (Cut_no_sep tok _ Htok).
    reflexivity.
  - intros b v1 v2 Hq Hm Hb Htok.
    exists (switchContentType (firstToken v1)). split.
    + rewrite (decode_dispatch (withContentType r v1) b Hq Hm Hb).
      rewrite contentTypeOf_with. reflexivity.
    + rewrite (decode_dispatch (withContentType r v2) b Hq Hm Hb).
      rewrite contentTypeOf_with, Htok. reflexivity.
  - apply answer_same_token.
Qed.

End DecoderProperties.

(** ** The query-string and form [variables] *)

(** C2. The [variables] parameter of the query string holds the JSON
    object [{"a":1}], which decodes to the mapping of [a] to [1]; the
    options [NewRequestOptions] returns have no [Variables] at all.  The
    same happens on the form path. *)
Theorem form_variables_dropped :
  url.Get (URL_Query Samples.queryVariables) "variables" = dquote "{'a':1}" ∧
  json.UnmarshalMapPtr (dquote "{'a':1}") None =
    (Some {[ "a" := IFloat "1" ]}, None) ∧
  answer (NewRequestOptions plainMediaType Samples.queryVariables) =
    Some (Some {| Query := "foo"; Variables := None; OperationName := "" |},
          None) ∧
  (∃ r', NewRequestOptions plainMediaType Samples.formVariables =
           Return (Some {| Query := "{field}"; Variables := None;
                           OperationName := "Op" |}) r' ∧
         url.Get (default ∅ (PostForm r')) "variables" = dquote "{'a':1}").
Proof.
  split; [vm_compute; reflexivity|].
  split; [vm_compute; reflexivity|].
  split; [vm_compute; reflexivity|].
  eexists. split; vm_compute; reflexivity.
Qed.

(** ** Witnesses *)

Lemma query_string_wins_witness :
  NewRequestOptions plainMediaType Samples.queryString =
    Return (Some {| Query := "foo"; Variables := None; OperationName := "bar" |})
           Samples.queryString ∧
  NewRequestOptions plainMediaType Samples.queryStringGet =
    Return (Some {| Query := "foo"; Variables := None; OperationName := "bar" |})
           Samples.queryStringGet.
Proof.
  assert (H : url.Get (URL_Query Samples.queryString) "query" ≠ "")
    by (vm_compute; discriminate).
  destruct (query_string_wins plainMediaType Samples.queryString H) as [H1 H2].
  split; [exact H1 | exact (H2 Samples.queryStringGet eq_refl)].
Defined.

Lemma gates_return_empty_witness :
  NewRequestOptions plainMediaType Samples.plainGet =
    Return (Some zeroRequestOptions) Samples.plainGet ∧
  NewRequestOptions plainMediaType Samples.postNoBody =
    Return (Some zeroRequestOptions) Samples.postNoBody.
Proof.
  assert (Hget : url.Get (URL_Query Samples.plainGet) "query" = "")
    by (vm_compute; reflexivity).
  assert (Hpost : url.Get (URL_Query Samples.postNoBody) "query" = "")
    by (vm_compute; reflexivity).
  split.
  - apply (proj1 (gates_return_empty plainMediaType Samples.plainGet Hget)).
    vm_compute. discriminate.
  - apply (proj2 (gates_return_empty plainMediaType Samples.postNoBody Hpost));
      vm_compute; reflexivity.
Defined.

Lemma graphql_body_is_query_witness :
  NewRequestOptions plainMediaType Samples.graphql =
    Return (Some {| Query := "query { field }"; Variables := None;
                    OperationName := "" |})
           (withBody Samples.graphql (drained (newBody "query { field }"))).
Proof.
  apply (graphql_body_is_query plainMediaType Samples.graphql
           (newBody "query { field }")); vm_compute; reflexivity.
Defined.

Lemma json_body_decodes_witness :
  NewRequestOptions plainMediaType Samples.jsonBody =
    Return (Some {| Query := "{a}";
                    Variables := Some {[ "x" := IFloat "1" ]};
                    OperationName := "Op" |})
           (withBody Samples.jsonBody (drained (newBody Samples.jsonText))).
Proof.
  apply (json_body_decodes plainMediaType Samples.jsonBody
           (newBody Samples.jsonText)
           [("query", JString "{a}"); ("variables", JObject [("x", JNumber "1")]);
            ("operationName", JString "Op")]
           [("x", JNumber "1")] "{a}" "Op");
    vm_compute; (reflexivity || discriminate).
Defined.

Lemma json_string_variables_recovered_witness :
  NewRequestOptions plainMediaType Samples.stringVariables =
    Return (Some {| Query := "{a}";
                    Variables := Some {[ "x" := IFloat "1" ]};
                    OperationName := "Op" |})
           (withBody Samples.stringVariables
                     (drained (newBody Samples.stringVariablesText))).
Proof.
  apply (json_string_variables_recovered plainMediaType Samples.stringVariables
           (newBody Samples.stringVariablesText)
           [("query", JString "{a}"); ("variables", JString (dquote "{'x':1}"));
            ("operationName", JString "Op")]
           [("x", JNumber "1")] (dquote "{'x':1}"));
    vm_compute; (reflexivity || discriminate).
Defined.

Lemma decode_total_witness :
  NewRequestOptions plainMediaType Samples.badJson =
    Return (Some zeroRequestOptions)
           (withBody Samples.badJson (drained (newBody (dquote "{'query':")))) ∧
  (∃ r', NewRequestOptions plainMediaType Samples.badForm =
           Return (Some zeroRequestOptions) r') ∧
  NewRequestOptions plainMediaType Samples.badVariables =
    Return (Some {| Query := "{a}"; Variables := None; OperationName := "Op" |})
           (withBody Samples.badVariables
                     (drained (newBody Samples.badVariablesText))).
Proof.
  split; [|split].
  - apply (proj1 (proj2 (decode_total plainMediaType Samples.badJson))
             (newBody (dquote "{'query':")));
      vm_compute; reflexivity.
  - eexists.
    eapply (proj1 (proj2 (proj2 (decode_total plainMediaType Samples.badForm)))
              (newBody "query=%zz") EscapeError);
      vm_compute; reflexivity.
  - apply (proj2 (proj2 (proj2 (decode_total plainMediaType Samples.badVariables)))
             (newBody Samples.badVariablesText)
             [("query", JString "{a}"); ("variables", JString "{x:1");
              ("operationName", JString "Op")] "{x:1");
      vm_compute; reflexivity.
Defined.

Lemma content_type_first_token_witness :
  firstToken "application/graphql; charset=utf-8" = "application/graphql" ∧
  answer (NewRequestOptions plainMediaType
            (withContentType Samples.graphql "application/graphql; charset=utf-8")) =
    answer (NewRequestOptions plainMediaType
              (withContentType Samples.graphql "application/graphql")) ∧
  (∃ c : switchCase,
     NewRequestOptions plainMediaType
       (withContentType Samples.badForm
          "application/x-www-form-urlencoded; charset=utf-8") =
       caseBody plainMediaType c (newBody "query=%zz")
         (withContentType Samples.badForm
            "application/x-www-form-urlencoded; charset=utf-8") ∧
     NewRequestOptions plainMediaType
       (withContentType Samples.badForm "application/x-www-form-urlencoded") =
       caseBody plainMediaType c (newBody "query=%zz")
         (withContentType Samples.badForm "application/x-www-form-urlencoded")).
Proof.
  split; [|split].
  - apply (proj1 (proj2 (content_type_first_token plainMediaType Samples.graphql))
             "application/graphql" " charset=utf-8").
    vm_compute. reflexivity.
  - apply (proj2 (proj2 (proj2
             (content_type_first_token plainMediaType Samples.graphql))));
      vm_compute; (reflexivity || discriminate).
  - apply (proj1 (proj2 (proj2
             (content_type_first_token plainMediaType Samples.badForm))));
      vm_compute; reflexivity.
Defined.

(** ** Construction *)

(** C9. [New] panics when there is no schema: for the nil [*Config], whose
    default has none, and for every [Config] whose [Schema] is nil.  For a
    [Config] with a schema it returns the handler made of the fields of the
    [Config], that schema among them. *)
Theorem New_requires_schema (schema : Type) :
  (∀ p : option (Config.t schema),
     p = None ∨ (∃ c, p = Some c ∧ Config.Schema c = None) →
     New p = Panics "undefined GraphQL schema") ∧
  (∀ (c : Config.t schema) (s : schema),
     Config.Schema c = Some s →
     New (Some c) =
       Ok {| Handler.Schema := Some s;
             Handler.Pretty := Config.Pretty c;
             Handler.BeforeRequest := Config.BeforeRequest c;
             Handler.AfterRequest := Config.AfterRequest c |}).
Proof.
  split.
  - intros p [-> | (c & -> & Hc)]; unfold New; [reflexivity|].
    rewrite Hc. reflexivity.
  - intros c s Hc. unfold New. rewrite Hc. reflexivity.
Qed.

Lemma New_requires_schema_witness :
  New (schema := nat) None = Panics "undefined GraphQL schema" ∧
  New (schema := nat) (Some NewConfig) = Panics "undefined GraphQL schema" ∧
  New (Some ConfigSamples.withSchema) =
    Ok {| Handler.Schema := Some 7%nat; Handler.Pretty := false;
          Handler.BeforeRequest := Config.BeforeRequest ConfigSamples.withSchema;
          Handler.AfterRequest := Config.AfterRequest ConfigSamples.withSchema |}.
Proof.
  split; [|split].
  - apply (proj1 (New_requires_schema nat)). left. reflexivity.
  - apply (proj1 (New_requires_schema nat)). right.
    exists NewConfig. split; reflexivity.
  - apply (proj2 (New_requires_schema nat) ConfigSamples.withSchema 7%nat).
    reflexivity.
Defined.

(** C10. In the variant with stack traces, the handler [New] returns for a
    [Config] with a schema has [ShowFullStackTrace] false, whatever the
    [Config] says: the field is not copied. *)
Theorem New_drops_ShowFullStackTrace (schema : Type)
    (c : Part000.Config.t schema) (s : schema) :
  Part000.Config.Schema c = Some s →
  ∃ h : Part000.Handler.t schema,
    Part000.New (Some c) = Ok h ∧
    Part000.Handler.ShowFullStackTrace h = false ∧
    Part000.Handler.Schema h = Some s ∧
    Part000.Handler.Pretty h = Part000.Config.Pretty c ∧
    Part000.Handler.LogSlowResponses h = Part000.Config.LogSlowResponses c.
Proof.
  intros Hc. unfold Part000.New. simpl. rewrite Hc.
  eexists. split; [reflexivity|]. simpl. auto.
Qed.

Lemma New_drops_ShowFullStackTrace_witness :
  Part000.Config.ShowFullStackTrace ConfigSamples.fullStackTrace = true ∧
  ∃ h : Part000.Handler.t nat,
    Part000.New (Some ConfigSamples.fullStackTrace) = Ok h ∧
    Part000.Handler.ShowFullStackTrace h = false.
Proof.
  split; [reflexivity|].
  destruct (New_drops_ShowFullStackTrace nat ConfigSamples.fullStackTrace
              7%nat eq_refl) as (h & H1 & H2 & _).
  exists h. split; [exact H1 | exact H2].
Defined.

(** * Further properties of the decoder *)

Lemma touched_refl (r : Request) : touched r r.
Proof. unfold touched. auto. Qed.

Lemma touched_withBody (r : Request) (b b' : Reader) :
  Body r = Some b → reads b' = S (reads b) → fault b' = fault b →
  touched r (withBody r b').
Proof.
  intros Hb Hr Hf. unfold touched. simpl.
  repeat split; try reflexivity. right. exists b, b'. auto.
Qed.

Lemma touched_bodyReads (r r' : Request) :
  touched r r' → (bodyReads r ≤ bodyReads r' ≤ S (bodyReads r))%nat.
Proof.
  intros (_ & _ & _ & [Hb | (b & b' & Hb & Hb' & Hr & _)]); unfold bodyReads.
  - rewrite Hb. lia.
  - rewrite Hb, Hb'. lia.
Qed.

Lemma getFromForm_formOptions (values : url.Values) :
  default zeroRequestOptions (getFromForm values) = formOptions values.
Proof.
  unfold formOptions.
  destruct (String.eqb (url.Get values "query") "") eqn:E.
  - apply String.eqb_eq in E. rewrite (getFromForm_no_query _ E). reflexivity.
  - apply String.eqb_neq in E. rewrite (getFromForm_query _ E).
    simpl. rewrite UnmarshalMapValue_keeps. reflexivity.
Qed.

Lemma scan_empty : scan "" = None.
Proof. reflexivity. Qed.

Lemma stringAfter_no_string (vs : list JSON.json) (cur : string) :
  forallb (λ v, negb (isString v)) vs = true → stringAfter vs cur = cur.
Proof.
  revert cur. induction vs as [|v vs IH]; intros cur H; [reflexivity|].
  simpl in H. apply andb_true_iff in H as [Hv Hvs].
  unfold stringAfter. cbn [fold_left].
  fold (stringAfter vs (json.storeString v cur).1).
  rewrite (IH _ Hvs). destruct v; try reflexivity. discriminate Hv.
Qed.

Section DecoderEffects.

Variable ParseMediaType : string → string * option error.

Local Abbreviation decode := (NewRequestOptions ParseMediaType).

Lemma ReadAllLimited_effect (n : N) (b : Reader) (r : Request) :
  ∃ x b', ReadAllLimited n b r = Return x (withBody r b') ∧
          reads b' = S (reads b) ∧ fault b' = fault b.
Proof.
  unfold ReadAllLimited.
  destruct (N.of_nat (String.length (pending b)) <? n).
  - run_m. exists (pending b, fault b), (drained b). auto.
  - destruct (splitAt n (pending b)) as [head tail]. run_m.
    eexists _, _. split; [reflexivity|]. auto.
Qed.

(** [parsePostForm] leaves the forms alone and reads the body at most
    once. *)
Lemma parsePostForm_effect (r : Request) :
  ∃ x r', parsePostForm ParseMediaType r = Return x r' ∧ touched r r' ∧
          Form r' = Form r ∧ PostForm r' = PostForm r.
Proof.
  unfold parsePostForm. run_m.
  destruct (Body r) as [b|] eqn:Hb.
  - destruct (ParseMediaType _) as [ct err].
    destruct (String.eqb ct _).
    + destruct (ReadAllLimited_effect (maxFormSize + 1) b r)
        as ([data e] & b' & -> & Hr & Hf).
      pose proof (touched_withBody r b b' Hb Hr Hf) as Ht.
      destruct e; [eauto 10|].
      destruct (maxFormSize <? _); [eauto 10|].
      destruct (url.ParseQuery data). eauto 10.
    + eexists _, _. split; [reflexivity|]. auto using touched_refl.
  - eexists _, _. split; [reflexivity|]. auto using touched_refl.
Qed.

(** [fillForm] changes [r.Form] only, and reports the error of the URL
    query when it has to parse it. *)
Lemma fillForm_effect (err : option error) (r : Request) :
  ∃ e r', fillForm err r = Return e r' ∧
          Method r' = Method r ∧ RawQuery r' = RawQuery r ∧
          Headers r' = Headers r ∧ Body r' = Body r ∧
          PostForm r' = PostForm r ∧
          e = match Form r with
              | Some _ => err
              | None => saveError err (url.ParseQuery (RawQuery r)).2
              end.
Proof.
  unfold fillForm. run_m.
  destruct (Form r); [eauto 10|].
  destruct (url.ParseQuery (RawQuery r)). eauto 10.
Qed.

(** [ParseForm]: the body is read at most once, [r.PostForm] is set
    afterwards, and an error in the URL query that has to be parsed is
    reported. *)
Lemma ParseForm_effect (r : Request) :
  ∃ e r', ParseForm ParseMediaType r = Return e r' ∧ touched r r' ∧
          is_Some (PostForm r') ∧
          (Form r = None → (url.ParseQuery (RawQuery r)).2 ≠ None → e ≠ None).
Proof.
  assert (Hsave : ∀ err e : option error, e ≠ None → saveError err e ≠ None).
  { intros [x|] e He; [discriminate | exact He]. }
  unfold ParseForm. run_m.
  destruct (PostForm r) as [pf|] eqn:Hpf.
  - destruct (fillForm_effect None r)
      as (e & r' & -> & Hm & Hq & Hh & Hb & Hp & He).
    eexists _, _. split; [reflexivity|]. split; [|split].
    + unfold touched. auto.
    + rewrite Hp, Hpf. eauto.
    + intros Hform Hurl. rewrite He, Hform. apply Hsave, Hurl.
  - assert (Hrest : ∀ (vs : option url.Values) (err : option error) (r1 : Request),
      touched r r1 → Form r1 = Form r →
      ∃ e r',
        fillForm err
          {| Method := Method r1; RawQuery := RawQuery r1;
             Headers := Headers r1; Body := Body r1; Form := Form r1;
             PostForm := Some (default ∅ vs) |} = Return e r' ∧
        touched r r' ∧ is_Some (PostForm r') ∧
        (Form r = None → (url.ParseQuery (RawQuery r)).2 ≠ None → e ≠ None)).
    { intros vs err r1 (Hm1 & Hq1 & Hh1 & Hb1) Hf1.
      destruct (fillForm_effect err
        {| Method := Method r1; RawQuery := RawQuery r1;
           Headers := Headers r1; Body := Body r1; Form := Form r1;
           PostForm := Some (default ∅ vs) |})
        as (e & r' & -> & Hm & Hq & Hh & Hb & Hp & He).
      simpl in *. eexists _, _. split; [reflexivity|]. split; [|split].
      - unfold touched. rewrite Hm, Hq, Hh, Hb. auto.
      - rewrite Hp. eauto.
      - intros Hform Hurl. rewrite He, Hf1, Hform, Hq1. apply Hsave, Hurl. }
    destruct (String.eqb (Method r) "POST" || String.eqb (Method r) "PUT"
              || String.eqb (Method r) "PATCH").
    + destruct (parsePostForm_effect r) as ([vs err] & r1 & -> & Ht & Hf & _).
      apply Hrest; assumption.
    + apply Hrest; [apply touched_refl | reflexivity].
Qed.

Lemma caseBody_touched (c : switchCase) (b : Reader) (r : Request) :
  Body r = Some b →
  ∃ o r', caseBody ParseMediaType c b r = Return (Some o) r' ∧ touched r r'.
Proof.
  intros Hb. destruct c.
  - destruct (caseBody_body_only ParseMediaType CaseGraphQL b) as [o Ho];
      [discriminate|].
    rewrite Ho. eexists _, _. split; [reflexivity|].
    apply (touched_withBody r b); auto.
  - unfold caseBody. run_m.
    destruct (ParseForm_effect r) as (e & r' & -> & Ht & _).
    destruct e; [eauto|]. destruct (getFromForm _); eauto.
  - destruct (caseBody_body_only ParseMediaType CaseDefault b) as [o Ho];
      [discriminate|].
    rewrite Ho. eexists _, _. split; [reflexivity|].
    apply (touched_withBody r b); auto.
Qed.

Lemma decode_touched (r : Request) :
  ∃ o r', decode r = Return (Some o) r' ∧ touched r r'.
Proof.
  destruct (decide (url.Get (URL_Query r) "query" = "")) as [Hq|Hq].
  - destruct (decide (Method r = "POST")) as [Hm|Hm].
    + destruct (Body r) as [b|] eqn:Hb.
      * rewrite (decode_dispatch ParseMediaType r b Hq Hm Hb).
        apply caseBody_touched, Hb.
      * rewrite (decode_gate ParseMediaType r Hq (or_intror Hb)).
        eauto using touched_refl.
    + rewrite (decode_gate ParseMediaType r Hq (or_introl Hm)).
      eauto using touched_refl.
  - rewrite (decode_query ParseMediaType r r eq_refl Hq).
    eauto using touched_refl.
Qed.

(** X1. Whatever the request, [NewRequestOptions] reads the body stream at
    most once, and it leaves method, query string and headers as they
    were; a request without body still has none afterwards. *)
Theorem decode_reads_body_at_most_once (r : Request) :
  ∃ (o : RequestOptions) (r' : Request),
    decode r = Return (Some o) r' ∧
    (bodyReads r ≤ bodyReads r' ≤ S (bodyReads r))%nat ∧
    Method r' = Method r ∧ RawQuery r' = RawQuery r ∧
    Headers r' = Headers r ∧
    (Body r = None → Body r' = None).
Proof.
  destruct (decode_touched r) as (o & r' & Hd & Ht).
  exists o, r'. split; [exact Hd|].
  split; [apply touched_bodyReads, Ht|].
  destruct Ht as (Hm & Hq & Hh & [Hb | (b & b' & Hb & _)]).
  - repeat split; try assumption. intros Hn. rewrite Hb. exact Hn.
  - repeat split; try assumption. intros Hn. rewrite Hn in Hb. discriminate.
Qed.

End DecoderEffects.

(** ** The form case *)

Section FormCase.

Variable ParseMediaType : string → string * option error.

Local Abbreviation decode := (NewRequestOptions ParseMediaType).

(** [ParseForm] on a request that arrives with a readable form body. *)
Lemma ParseForm_success (r : Request) (b : Reader) (vs : url.Values) :
  Method r = "POST" →
  Body r = Some b →
  PostForm r = None →
  contentTypeOf r ≠ "" →
  ParseMediaType (contentTypeOf r) = (ContentTypeFormURLEncoded, None) →
  fault b = None →
  N.of_nat (String.length (pending b)) ≤ maxFormSize →
  url.ParseQuery (pending b) = (vs, None) →
  (url.ParseQuery (RawQuery r)).2 = None →
  ∃ r', ParseForm ParseMediaType r = Return None r' ∧
        PostForm r' = Some vs ∧ Body r' = Some (drained b).
Proof.
  intros Hm Hb Hpf Hct Hmt Hf Hlen Hvs Hurl.
  unfold contentTypeOf in *.
  unfold ParseForm, parsePostForm. run_m.
  rewrite Hpf, Hm. simpl. rewrite Hb.
  rewrite (eqb_string_false _ _ Hct), Hmt. simpl.
  unfold ReadAllLimited.
  assert (Hlt : (N.of_nat (String.length (pending b)) <? maxFormSize + 1) = true)
    by (apply N.ltb_lt; lia).
  rewrite Hlt. run_m. rewrite Hf.
  assert (Hle : (maxFormSize <? N.of_nat (String.length (pending b))) = false)
    by (apply N.ltb_ge; lia).
  rewrite Hle, Hvs. simpl.
  match goal with
  | |- context [fillForm ?e ?r0] =>
      destruct (fillForm_effect e r0) as (e' & r' & -> & _ & _ & _ & HB & HP & He)
  end.
  simpl in *. exists r'. rewrite He, Hurl.
  destruct (Form r); simpl; auto.
Qed.

(** X2. A POST request that arrives with no query-string [query], a
    [Content-Type] whose first token is the form type and which
    [ParseForm] accepts, and a body that can be read, is within the size
    limit and parses as a form, the URL query parsing too: the options are
    those of the form, its [query] and [operationName] with no
    [Variables], or all-empty ones when the form has no [query].  The body
    has been read once and the parsed form is kept in [r.PostForm]. *)
Theorem form_body_decodes_to_form_options (r : Request) (b : Reader)
    (vs : url.Values) :
  url.Get (URL_Query r) "query" = "" →
  Method r = "POST" →
  Body r = Some b →
  PostForm r = None →
  firstToken (contentTypeOf r) = ContentTypeFormURLEncoded →
  ParseMediaType (contentTypeOf r) = (ContentTypeFormURLEncoded, None) →
  fault b = None →
  N.of_nat (String.length (pending b)) ≤ maxFormSize →
  url.ParseQuery (pending b) = (vs, None) →
  (url.ParseQuery (RawQuery r)).2 = None →
  ∃ r', decode r = Return (Some (formOptions vs)) r' ∧
        PostForm r' = Some vs ∧ Body r' = Some (drained b).
Proof.
  intros Hq Hm Hb Hpf Htok Hmt Hf Hlen Hvs Hurl.
  assert (Hct : contentTypeOf r ≠ "").
  { intros E. rewrite E in Htok. discriminate Htok. }
  destruct (ParseForm_success r b vs Hm Hb Hpf Hct Hmt Hf Hlen Hvs Hurl)
    as (r' & Hparse & HP & HB).
  exists r'. split; [|auto].
  rewrite (decode_dispatch ParseMediaType r b Hq Hm Hb), Htok.
  unfold switchContentType, caseBody. simpl. run_m.
  rewrite Hparse, HP. simpl.
  rewrite <- getFromForm_formOptions.
  destruct (getFromForm vs); reflexivity.
Qed.

(** X3. On the form case a URL query string that does not parse spoils
    the form: when [r.Form] is still to be made, [ParseForm] reports the
    error of the URL query, and the options are all-empty whatever the
    body holds. *)
Theorem form_case_malformed_url_query (r : Request) (b : Reader) :
  url.Get (URL_Query r) "query" = "" →
  Method r = "POST" →
  Body r = Some b →
  firstToken (contentTypeOf r) = ContentTypeFormURLEncoded →
  Form r = None →
  (url.ParseQuery (RawQuery r)).2 ≠ None →
  ∃ r', decode r = Return (Some zeroRequestOptions) r'.
Proof.
  intros Hq Hm Hb Htok Hform Hurl.
  rewrite (decode_dispatch ParseMediaType r b Hq Hm Hb), Htok.
  unfold switchContentType, caseBody. simpl. run_m.
  destruct (ParseForm_effect ParseMediaType r) as (e & r' & -> & _ & _ & He).
  specialize (He Hform Hurl).
  destruct e as [e|]; [|contradiction]. eauto.
Qed.

End FormCase.

(** ** The default case *)

Section DefaultCase.

Variable ParseMediaType : string → string * option error.

Local Abbreviation decode := (NewRequestOptions ParseMediaType).

(** X4. On the default case a body that cannot be read, and a body that
    is JSON but not an object ([null], a number, a string, a boolean, an
    array), both give all-empty options. *)
Theorem default_case_not_an_object (r : Request) (b : Reader) :
  url.Get (URL_Query r) "query" = "" →
  Method r = "POST" →
  Body r = Some b →
  switchContentType (firstToken (contentTypeOf r)) = CaseDefault →
  fault b ≠ None ∨ (∃ v, scan (pending b) = Some v ∧ isObject v = false) →
  decode r = Return (Some zeroRequestOptions) (withBody r (drained b)).
Proof.
  intros Hq Hm Hb Hc Hbody.
  rewrite (decode_dispatch ParseMediaType r b Hq Hm Hb), Hc.
  unfold caseBody. run_m.
  destruct Hbody as [Hf | (v & Hscan & Hv)].
  - destruct (fault b); [reflexivity | contradiction].
  - destruct (fault b); [reflexivity|].
    unfold json.UnmarshalOptions, json.UnmarshalCompat. rewrite Hscan.
    destruct v; try discriminate Hv; reflexivity.
Qed.

(** X5. On the default case each field is decoded on its own.  For a body
    that is a JSON object, [Query] and [OperationName] are what the
    members routed to them give, whatever the other members are; and when
    no [variables] member is a string, [Variables] is what the [variables]
    members give, whether or not the fallback has run. *)
Theorem default_case_fields_independent (r : Request) (b : Reader)
    (members : list (string * JSON.json)) :
  url.Get (URL_Query r) "query" = "" →
  Method r = "POST" →
  Body r = Some b →
  fault b = None →
  switchContentType (firstToken (contentTypeOf r)) = CaseDefault →
  scan (pending b) = Some (JObject members) →
  forallb (λ v, negb (isString v)) (routed json.FVariables members) = true →
  decode r =
    Return (Some {| Query := stringAfter (routed json.FQuery members) "";
                    Variables :=
                      mapAfter (routed json.FVariables members) None;
                    OperationName :=
                      stringAfter (routed json.FOperationName members) "" |})
           (withBody r (drained b)).
Proof.
  intros Hq Hm Hb Hf Hc Hscan Hvars.
  rewrite (decode_dispatch ParseMediaType r b Hq Hm Hb), Hc.
  rewrite (caseDefault_object ParseMediaType r b members Hf Hscan).
  destruct (misfit members); [|reflexivity].
  rewrite (stringAfter_no_string _ "" Hvars).
  unfold json.UnmarshalMapPtr. rewrite scan_empty. reflexivity.
Qed.

(** X6. The body can be decoded once.  After a run on the GraphQL or the
    default case, a second run on the request as the first one left it
    finds the body stream empty and returns all-empty options. *)
Theorem second_decode_is_empty (r : Request) (b : Reader) :
  url.Get (URL_Query r) "query" = "" →
  Method r = "POST" →
  Body r = Some b →
  switchContentType (firstToken (contentTypeOf r)) ≠ CaseFormURLEncoded →
  ∃ (o : RequestOptions) (r' : Request),
    decode r = Return (Some o) r' ∧
    decode r' =
      Return (Some zeroRequestOptions) (withBody r' (drained (drained b))).
Proof.
  intros Hq Hm Hb Hc.
  destruct (caseBody_body_only ParseMediaType _ b Hc) as [o Ho].
  exists o, (withBody r (drained b)).
  rewrite (decode_dispatch ParseMediaType r b Hq Hm Hb).
  split; [apply Ho|].
  rewrite (decode_dispatch ParseMediaType (withBody r (drained b)) (drained b)
             Hq Hm eq_refl).
  change (contentTypeOf (withBody r (drained b))) with (contentTypeOf r).
  destruct (switchContentType (firstToken (contentTypeOf r)));
    [|contradiction|]; unfold caseBody; run_m.
  - destruct (fault b); reflexivity.
  - destruct (fault b); reflexivity.
Qed.

End DefaultCase.

(** ** [getFromForm] as its callers see it *)

(** X7. [getFromForm] returns nil exactly when the form has no non-empty
    [query]; the options it returns otherwise have that non-empty [query],
    the [operationName] of the form, and never any [Variables], whatever
    the [variables] field holds. *)
Theorem getFromForm_result (values : url.Values) :
  (getFromForm values = None ↔ url.Get values "query" = "") ∧
  (∀ o : RequestOptions,
     getFromForm values = Some o →
     Query o = url.Get values "query" ∧ Query o ≠ "" ∧
     Variables o = None ∧
     OperationName o = url.Get values "operationName").
Proof.
  split.
  - split.
    + intros Hnone.
      destruct (decide (url.Get values "query" = "")) as [E|E]; [exact E|].
      rewrite (getFromForm_query _ E) in Hnone. discriminate.
    + apply getFromForm_no_query.
  - intros o Ho.
    destruct (decide (url.Get values "query" = "")) as [E|E].
    + rewrite (getFromForm_no_query _ E) in Ho. discriminate.
    + pose proof (getFromForm_Variables _ _ Ho) as Hv.
      rewrite (getFromForm_query _ E) in Ho. injection Ho as <-.
      simpl in *. auto.
Qed.

(** * Construction, further *)

(** X8. [New] of the second package text: it panics on the nil [Config]
    and on a [Config] without schema, returns a handler for no other
    argument, and the handler carries the schema and both settings,
    [LogSlowResponses] included. *)
Theorem Variant2_New_copies_settings (schema : Type)
    (p : option (Variant2.Config.t schema)) :
  match p with
  | Some c =>
      match Variant2.Config.Schema c with
      | Some s =>
          Variant2.New p =
            Ok {| Variant2.Handler.Schema := Some s;
                  Variant2.Handler.pretty := Variant2.Config.Pretty c;
                  Variant2.Handler.logSlowResponses :=
                    Variant2.Config.LogSlowResponses c |}
      | None => Variant2.New p = Panics "undefined GraphQL schema"
      end
  | None => Variant2.New p = Panics "undefined GraphQL schema"
  end.
Proof.
  destruct p as [c|]; [|reflexivity].
  unfold Variant2.New. simpl.
  destruct (Variant2.Config.Schema c); reflexivity.
Qed.

(** * Serving *)

Lemma emit_lines_events {P} (lines : list string) (w : World P) :
  fold_left (λ w line, emit (Log [LString line]) w) lines w =
    {| clock := clock w; ticks := ticks w;
       events := (events w ++ map logLine lines)%list;
       response := response w; request := request w |}.
Proof.
  revert w. induction lines as [|l lines IH]; intros w.
  - destruct w. simpl. rewrite app_nil_r. reflexivity.
  - cbn [fold_left]. rewrite IH. unfold emit. simpl.
    rewrite <- app_assoc. reflexivity.
Qed.


Section ServingProperties.

Variables schema context Result : Type.
Variable ParseMediaType : string → string * option error.
Variable Do : graphql.Params schema context → Result.
Variable stackTraces : Result → list string.
Variable Marshal : Result → string.
Variable MarshalIndent : Result → string.
Variable Background : context.

Local Abbreviation decode := (NewRequestOptions ParseMediaType).
Local Abbreviation params := (graphql.Params schema context).
Local Abbreviation serve :=
  (ContextHandler schema context Result ParseMediaType Do stackTraces
     Marshal MarshalIndent).
Local Abbreviation serve2 :=
  (ContextHandler2 schema context Result ParseMediaType Do
     Marshal MarshalIndent).







(** X12. A handler without schema answers no request: [ContextHandler]
    panics on the nil schema, whatever the request. *)
Theorem ContextHandler_nil_schema_panics (h : Handler.t schema)
    (ctx : context) (w : World params) :
  Handler.Schema h = None →
  serve h ctx w = Panics "nil pointer dereference".
Proof.
  intros Hs.
  destruct (decode_touched ParseMediaType (request w)) as (opts & r' & Hd & _).
  unfold ContextHandler. simpl. rewrite Hd. simpl. rewrite Hs. reflexivity.
Qed.

Local Arguments Z.quot : simpl never.
Local Arguments Z.ltb : simpl never.

(** What [ContextHandler] of the second package text does, for a handler
    with a schema. *)
Lemma ContextHandler2_runs (h : Variant2.Handler.t schema) (ctx : context)
    (w : World params) (s : schema) :
  Variant2.Handler.Schema h = Some s →
  ∃ (opts : RequestOptions) (r' : Request),
    decode (request w) = Return (Some opts) r' ∧
    let prm := paramsOf s ctx opts r' in
    let body := if Variant2.Handler.pretty h then MarshalIndent (Do prm)
                else Marshal (Do prm) in
    let elapsed := (clock w (S (ticks w)) - clock w (ticks w))%Z in
    serve2 h ctx w =
      Ok {| clock := clock w;
            ticks := S (S (ticks w));
            events :=
              (events w ++ [EngineCall prm] ++
               if Variant2.Handler.logSlowResponses h
                  && (200 <? Z.quot elapsed Millisecond)%Z
               then [logLine slowResponseBanner;
                     Log [LString "response time: "; LDuration elapsed]] ++
                    map logLine (Split (Query opts) "010"%char)
               else [])%list;
            response := Write body (WriteHeader StatusOK (response w));
            request := r' |}.
Proof.
  intros Hs.
  destruct (decode_touched ParseMediaType (request w)) as (opts & r' & Hd & _).
  exists opts, r'. split; [exact Hd|].
  unfold ContextHandler2. simpl. rewrite Hd. simpl. rewrite Hs.
  unfold paramsOf.
  destruct (Variant2.Handler.logSlowResponses h);
    destruct (Variant2.Handler.pretty h);
    rewrite ?emit_lines_events; unfold emit, logLine; simpl;
    rewrite <- ?app_assoc;
    try destruct (200 <? _)%Z; reflexivity.
Qed.

(** X13. The handler of the second package text logs nothing when
    [logSlowResponses] is off or when the response took 200 milliseconds
    or less (in whole milliseconds): the engine call is all that
    happens. *)
Theorem ContextHandler2_quiet (h : Variant2.Handler.t schema) (ctx : context)
    (w : World params) (s : schema) :
  Variant2.Handler.Schema h = Some s →
  Variant2.Handler.logSlowResponses h = false ∨
  (Z.quot (clock w (S (ticks w)) - clock w (ticks w)) Millisecond ≤ 200)%Z →
  ∃ (opts : RequestOptions) (r' : Request) (w' : World params),
    decode (request w) = Return (Some opts) r' ∧
    serve2 h ctx w = Ok w' ∧
    events w' = (events w ++ [EngineCall (paramsOf s ctx opts r')])%list.
Proof.
  intros Hs Hquiet.
  destruct (ContextHandler2_runs h ctx w s Hs) as (opts & r' & Hd & Hrun).
  exists opts, r'. eexists. split; [exact Hd|]. split; [exact Hrun|].
  cbn [events].
  assert (Hoff : Variant2.Handler.logSlowResponses h
                 && (200 <? Z.quot (clock w (S (ticks w)) - clock w (ticks w))
                                   Millisecond)%Z = false).
  { destruct Hquiet as [-> | Hle]; [reflexivity|].
    apply andb_false_iff. right. apply Z.ltb_ge. exact Hle. }
  rewrite Hoff. reflexivity.
Qed.


End ServingProperties.

(** * Witnesses of the further properties *)

Lemma form_body_decodes_to_form_options_witness :
  ∃ r', NewRequestOptions plainMediaType Samples.formVariables =
          Return (Some {| Query := "{field}"; Variables := None;
                          OperationName := "Op" |}) r'.
Proof.
  destruct (form_body_decodes_to_form_options plainMediaType
              Samples.formVariables
              (newBody "query=%7Bfield%7D&operationName=Op&variables=%7B%22a%22%3A1%7D")
              (url.ParseQuery
                 "query=%7Bfield%7D&operationName=Op&variables=%7B%22a%22%3A1%7D").1)
    as (r' & H & _); try (vm_compute; (reflexivity || discriminate)).
  exists r'. exact H.
Defined.

Lemma form_case_malformed_url_query_witness :
  ∃ r', NewRequestOptions plainMediaType MoreSamples.formBadUrl =
          Return (Some zeroRequestOptions) r'.
Proof.
  apply (form_case_malformed_url_query plainMediaType MoreSamples.formBadUrl
           (newBody "query=foo"));
    vm_compute; (reflexivity || discriminate).
Defined.

Lemma default_case_not_an_object_witness :
  NewRequestOptions plainMediaType MoreSamples.jsonNull =
    Return (Some zeroRequestOptions)
           (withBody MoreSamples.jsonNull (drained (newBody "null"))).
Proof.
  apply (default_case_not_an_object plainMediaType MoreSamples.jsonNull
           (newBody "null")); try (vm_compute; reflexivity).
  right. exists JNull. split; vm_compute; reflexivity.
Defined.

Lemma default_case_fields_independent_witness :
  NewRequestOptions plainMediaType MoreSamples.numberQuery =
    Return (Some {| Query := "";
                    Variables := Some {[ "x" := IFloat "1" ]};
                    OperationName := "Op" |})
           (withBody MoreSamples.numberQuery
                     (drained (newBody MoreSamples.numberQueryText))).
Proof.
  apply (default_case_fields_independent plainMediaType MoreSamples.numberQuery
           (newBody MoreSamples.numberQueryText)
           [("query", JNumber "5"); ("variables", JObject [("x", JNumber "1")]);
            ("operationName", JString "Op")]);
    vm_compute; reflexivity.
Defined.

Lemma second_decode_is_empty_witness :
  ∃ (o : RequestOptions) (r' : Request),
    NewRequestOptions plainMediaType Samples.graphql = Return (Some o) r' ∧
    NewRequestOptions plainMediaType r' =
      Return (Some zeroRequestOptions)
             (withBody r' (drained (drained (newBody "query { field }")))).
Proof.
  apply (second_decode_is_empty plainMediaType Samples.graphql
           (newBody "query { field }"));
    vm_compute; (reflexivity || discriminate).
Defined.

Lemma getFromForm_result_witness :
  Query {| Query := "foo"; Variables := None; OperationName := "bar" |} ≠ "" ∧
  getFromForm (URL_Query Samples.plainGet) = None.
Proof.
  split.
  - apply (proj2 (getFromForm_result (URL_Query Samples.queryString))
             {| Query := "foo"; Variables := None; OperationName := "bar" |}).
    vm_compute. reflexivity.
  - apply (proj1 (getFromForm_result (URL_Query Samples.plainGet))).
    vm_compute. reflexivity.
Defined.




Lemma ContextHandler_nil_schema_panics_witness :
  ContextHandler nat unit (list string) plainMediaType EngineSamples.Do id
    EngineSamples.Marshal EngineSamples.MarshalIndent
    MoreSamples.noSchema tt (MoreSamples.fast Samples.queryString) =
    Panics "nil pointer dereference".
Proof.
  apply (ContextHandler_nil_schema_panics nat unit (list string)
           plainMediaType EngineSamples.Do id EngineSamples.Marshal
           EngineSamples.MarshalIndent MoreSamples.noSchema tt
           (MoreSamples.fast Samples.queryString)).
  reflexivity.
Defined.

Lemma ContextHandler2_quiet_witness :
  ∃ (opts : RequestOptions) (r' : Request) (w' : World (graphql.Params nat unit)),
    NewRequestOptions plainMediaType Samples.graphql = Return (Some opts) r' ∧
    ContextHandler2 nat unit (list string) plainMediaType EngineSamples.Do
      EngineSamples.Marshal EngineSamples.MarshalIndent
      EngineSamples.slowHandler tt (MoreSamples.fast Samples.graphql) = Ok w'.
Proof.
  destruct (ContextHandler2_quiet nat unit (list string) plainMediaType
              EngineSamples.Do EngineSamples.Marshal EngineSamples.MarshalIndent
              EngineSamples.slowHandler tt (MoreSamples.fast Samples.graphql)
              7%nat eq_refl)
    as (opts & r' & w' & H1 & H2 & _).
  { right. vm_compute. discriminate. }
  exists opts, r', w'. auto.
Defined.


(** * Serving in the variant with stack traces *)

Example RemoveAll_examples :
  map (λ old, RemoveAll "/wd/a.go /wd/b" old) ["/wd"; ""; "/wd/a.go /wd/b"; "zz"]
  = ["/a.go /b"; "/wd/a.go /wd/b"; ""; "/wd/a.go /wd/b"].
Proof. reflexivity. Qed.

Example ContainsString_examples :
  map (ContainsString "src/runtime/panic.go") ["runtime"; "graphql-go"; ""; "go"]
  = [true; false; true; true].
Proof. reflexivity. Qed.

Lemma append_assoc (a b c : string) : (a +:+ b) +:+ c = a +:+ (b +:+ c).
Proof.
  induction a as [|x a IH]; [reflexivity|].
  change (String x ((a +:+ b) +:+ c) = String x (a +:+ (b +:+ c))).
  f_equal. exact IH.
Qed.

Lemma append_empty_r (a : string) : a +:+ "" = a.
Proof.
  induction a as [|x a IH]; [reflexivity|].
  change (String x (a +:+ "") = String x a).
  f_equal. exact IH.
Qed.

Lemma RemoveAll_empty (s : string) : RemoveAll s "" = s.
Proof.
  unfold RemoveAll. induction s as [|c s IH]; simpl; [reflexivity|].
  rewrite IH. reflexivity.
Qed.

Lemma writeStackLines (dir : string) (lines : list string) (buf : string) :
  fold_left (writeStackLine dir) lines buf =
    buf +:+ concatStrings (map (shownLine dir) (List.filter keptLine lines)).
Proof.
  revert buf. induction lines as [|l lines IH]; intros buf.
  - simpl. rewrite append_empty_r. reflexivity.
  - cbn [fold_left List.filter]. rewrite IH. unfold writeStackLine, keptLine.
    destruct (ContainsString l "graphql-go"); cbn [negb andb]; [reflexivity|].
    destruct (ContainsString l "runtime"); cbn [negb andb]; [reflexivity|].
    cbn [map concatStrings]. unfold shownLine at 2.
    rewrite !append_assoc. reflexivity.
Qed.

Section Serving000Properties.

Variables schema context Result : Type.
Variable ParseMediaType : string → string * option error.
Variable Do : graphql.Params schema context → Result.
Variable Marshal : Result → string.
Variable MarshalIndent : Result → string.
Variable errorsOf : Result → list (string * string).
Variable scanLines : string → list string.
Variable Getwd : string.

Local Abbreviation decode := (NewRequestOptions ParseMediaType).
Local Abbreviation params := (graphql.Params schema context).
Local Abbreviation trace := (filteredTrace scanLines Getwd).
Local Abbreviation serve :=
  (ContextHandler000 schema context Result ParseMediaType Do
     Marshal MarshalIndent errorsOf scanLines Getwd).

(** X15. The text logged for an error without the full stack: a fixed
    head with the message, then the stack lines that mention neither
    [graphql-go] nor [runtime], each behind a bar and with the working
    directory taken out, in their order, then a fixed foot.  The test for
    the two words is made on the line as it is in the stack, before the
    directory is taken out. *)
Theorem filteredTrace_keeps_other_lines (message stack : string) :
  trace message stack =
    (newline +:+ newline +:+ traceRule +:+ newline +:+
     "|  graphql error" +:+ newline +:+
     traceRule +:+ newline +:+
     "|" +:+ newline +:+ "|  " +:+ message +:+ newline +:+
     "|  ..." +:+ newline) +:+
    concatStrings
      (map (shownLine Getwd) (List.filter keptLine (scanLines stack))) +:+
    ("|  ..." +:+ newline +:+ traceRule +:+ newline).
Proof.
  unfold filteredTrace. rewrite writeStackLines.
  rewrite !append_assoc. reflexivity.
Qed.

Lemma logErrors_filtered (errs : list (string * string)) (w : World params) :
  fold_left
    (logError schema context scanLines Getwd false) errs w =
    {| clock := clock w; ticks := ticks w;
       events :=
         (events w ++ map (λ e, logLine (trace e.1 e.2)) errs)%list;
       response := response w; request := request w |}.
Proof.
  revert w. induction errs as [|[msg stack] errs IH]; intros w.
  - destruct w. simpl. rewrite app_nil_r. reflexivity.
  - cbn [fold_left]. rewrite IH. unfold logError, emit. simpl.
    rewrite <- app_assoc. reflexivity.
Qed.

Local Arguments Z.quot : simpl never.
Local Arguments Z.ltb : simpl never.

(** What [ContextHandler] of this variant does, for a handler with a
    schema and without full stack traces. *)
Lemma ContextHandler000_runs (h : Part000.Handler.t schema) (ctx : context)
    (w : World params) (s : schema) :
  Part000.Handler.Schema h = Some s →
  Part000.Handler.ShowFullStackTrace h = false →
  ∃ (opts : RequestOptions) (r' : Request),
    decode (request w) = Return (Some opts) r' ∧
    let prm := paramsOf s ctx opts r' in
    let body := if Part000.Handler.Pretty h then MarshalIndent (Do prm)
                else Marshal (Do prm) in
    serve h ctx w =
      Ok {| clock := clock w;
            ticks := S (S (ticks w));
            events :=
              (events w ++ [EngineCall prm] ++
               map (λ e, logLine (trace e.1 e.2)) (errorsOf (Do prm)) ++
               slowLog (Part000.Handler.LogSlowResponses h)
                       (clock w (S (ticks w)) - clock w (ticks w))
                       (Query opts))%list;
            response := Write body (WriteHeader StatusOK (response w));
            request := r' |}.
Proof.
  intros Hs Hfull.
  destruct (decode_touched ParseMediaType (request w)) as (opts & r' & Hd & _).
  exists opts, r'. split; [exact Hd|].
  unfold ContextHandler000. simpl. rewrite Hd. simpl. rewrite Hs, Hfull.
  rewrite logErrors_filtered. unfold paramsOf, slowLog.
  destruct (Part000.Handler.LogSlowResponses h);
    destruct (Part000.Handler.Pretty h);
    rewrite ?emit_lines_events; unfold emit, logLine; simpl;
    try destruct (200 <? _)%Z;
    simpl; rewrite <- ?app_assoc; simpl; rewrite ?app_nil_r; reflexivity.
Qed.

(** X16. A handler that [New] of this variant has returned never logs a
    full stack: whatever the [Config] asked for, [ContextHandler] answers
    the request, and what it logs after the engine call is the filtered
    text of each error, one entry per error and in order, and then the
    slow-response log. *)
Theorem Part000_handler_logs_filtered_traces
    (p : option (Part000.Config.t schema)) (h : Part000.Handler.t schema)
    (ctx : context) (w : World params) :
  Part000.New p = Ok h →
  ∃ (s : schema) (opts : RequestOptions) (r' : Request) (w' : World params),
    decode (request w) = Return (Some opts) r' ∧
    serve h ctx w = Ok w' ∧
    let prm := paramsOf s ctx opts r' in
    events w' =
      (events w ++ [EngineCall prm] ++
       map (λ e, logLine (trace e.1 e.2)) (errorsOf (Do prm)) ++
       slowLog (Part000.Handler.LogSlowResponses h)
               (clock w (S (ticks w)) - clock w (ticks w))
               (Query opts))%list.
Proof.
  intros Hnew.
  assert (Hh : ∃ s, Part000.Handler.Schema h = Some s ∧
                    Part000.Handler.ShowFullStackTrace h = false).
  { unfold Part000.New in Hnew. destruct p as [c|]; simpl in Hnew;
      [|discriminate].
    destruct (Part000.Config.Schema c) as [s|] eqn:Hs; [|discriminate].
    injection Hnew as <-. exists s. split; reflexivity. }
  destruct Hh as (s & Hs & Hfull).
  destruct (ContextHandler000_runs h ctx w s Hs Hfull)
    as (opts & r' & Hd & Hrun).
  exists s, opts, r'. eexists. split; [exact Hd|]. split; [exact Hrun|].
  reflexivity.
Qed.

End Serving000Properties.

Lemma Part000_handler_logs_filtered_traces_witness :
  ∃ (s : nat) (opts : RequestOptions) (r' : Request)
    (w' : World (graphql.Params nat unit)),
    NewRequestOptions plainMediaType Samples.plainGet = Return (Some opts) r' ∧
    ContextHandler000 nat unit (list string) plainMediaType EngineSamples.Do
      EngineSamples.Marshal EngineSamples.MarshalIndent
      (map (λ t, (t, "main.go" +:+ newline +:+ "runtime/panic.go")))
      (λ stack, Split stack "010"%char) "/wd"
      {| Part000.Handler.Schema := Some 7%nat;
         Part000.Handler.Pretty := true;
         Part000.Handler.LogSlowResponses := true;
         Part000.Handler.ShowFullStackTrace := false |}
      tt (MoreSamples.fast Samples.plainGet) = Ok w'.
Proof.
  destruct (Part000_handler_logs_filtered_traces nat unit (list string)
              plainMediaType EngineSamples.Do EngineSamples.Marshal
              EngineSamples.MarshalIndent
              (map (λ t, (t, "main.go" +:+ newline +:+ "runtime/panic.go")))
              (λ stack, Split stack "010"%char) "/wd"
              (Some ConfigSamples.fullStackTrace)
              {| Part000.Handler.Schema := Some 7%nat;
                 Part000.Handler.Pretty := true;
                 Part000.Handler.LogSlowResponses := true;
                 Part000.Handler.ShowFullStackTrace := false |}
              tt (MoreSamples.fast Samples.plainGet) eq_refl)
    as (s & opts & r' & w' & H1 & H2 & _).
  exists s, opts, r', w'. auto.
Defined.
